(** * senti-sync: the pattern predictor

    A shallow embedding of [src/prediction/PatternPredictor.ts] together with
    the part of [src/storage/LocalStateManager.ts] it talks to, and the
    properties of the analysis, forecast and dip queries.

    Conventions of the embedding.
    - A JavaScript [number] that carries a measurement (mood, energy, an
      average, a weight, a confidence) is read as an exact rational [Q];
      integers that are keys, counters, timestamps or results of [Math.round]
      are [Z].  This reading carries the properties of shape, order, range
      and effect.  It is not the program's arithmetic: a double-precision
      blend that falls just under a half rounds down where the exact one
      rounds up.
    - Where a property states the value an analysis computes, the analysis
      is evaluated as the program evaluates it, in IEEE 754 binary64, in the
      module [Binary64].  The forecast keeps the exact reading: what is
      proved of it are ranges, timestamps, effects and dependences, not the
      value of a predicted mood or energy.
    - [async] functions are computations over a [World] (the key-value store,
      the wall clock and the position in the [Math.random] sequence) that
      either resolve or reject.  [AsyncStorage] is reliable: its calls do not
      throw, so the [catch] branches of [LocalStateManager] are not reached,
      and what was saved is what is read back.
    - What depends on the device (the local calendar behind [getHours] and
      [getDay], [Math.sin], the [Math.random] sequence, the locale's time
      format) is a variable of the section [Predictor]. *)

From Stdlib Require Import ZArith QArith Qround Qminmax Lia Lqa Sorted.
From Stdlib Require Floats.
From stdpp Require Import gmap strings list.
Import PrimFloat.PrimFloatNotations.

(** ** Numbers *)

Module JS.

(** [Math.round]: nearest integer, halves go up. *)
Definition Math_round (x : Q) : Z := Qfloor (x + 0.5).

Definition Math_min (x y : Q) : Q := Qmin x y.
Definition Math_max (x y : Q) : Q := Qmax x y.

(** [values.reduce((a, b) => a + b, 0)] *)
Definition sum (values : list Q) : Q := fold_left Qplus values 0%Q.

(** [values.length] as a number *)
Definition len {A} (values : list A) : Q := inject_Z (Z.of_nat (length values)).

(** [x > y] on numbers *)
Definition gt_number (x y : Q) : bool := negb (Qle_bool x y).

(** [x || d] on numbers: zero is falsy. *)
Definition or_else (x d : Q) : Q := if Qeq_bool x 0 then d else x.

(** [o?.field || d]: an absent object gives [undefined], which is falsy. *)
Definition field_or {A} (field : A -> Q) (o : option A) (d : Q) : Q :=
  match o with
  | Some x => or_else (field x) d
  | None => d
  end.

(** [values.slice(-n)] *)
Definition slice_last {A} (n : nat) (values : list A) : list A :=
  drop (length values - n) values.

(** [values.slice(-a, -b)] *)
Definition slice_window {A} (a b : nat) (values : list A) : list A :=
  let start := (length values - a)%nat in
  let stop := (length values - b)%nat in
  take (stop - start) (drop start values).

End JS.
Import JS.

(** ** Data model ([@/models/MoodEnergyEntry]) *)

Record MoodEnergyEntry := {
  id : string;
  timestamp : Z;
  mood : Q;
  energy : Q;
}.

Module DailyPattern.
Record t := {
  hour : Z;
  averageMood : Q;
  averageEnergy : Q;
  entryCount : Z;
}.
End DailyPattern.

Module WeeklyPattern.
Record t := {
  dayOfWeek : Z;
  averageMood : Q;
  averageEnergy : Q;
  entryCount : Z;
}.
End WeeklyPattern.

Record PredictionData := {
  p_timestamp : Z;
  predictedMood : Z;
  predictedEnergy : Z;
  confidence : Q;
}.

(** The element type of what [findEnergyDips] returns. *)
Record EnergyDip := {
  time : string;
  dip_energy : Z;
}.

Definition daily (h m e : Z) : DailyPattern.t :=
  {| DailyPattern.hour := h;
     DailyPattern.averageMood := inject_Z m;
     DailyPattern.averageEnergy := inject_Z e;
     DailyPattern.entryCount := 0 |}.

Definition weekly (d m e : Z) : WeeklyPattern.t :=
  {| WeeklyPattern.dayOfWeek := d;
     WeeklyPattern.averageMood := inject_Z m;
     WeeklyPattern.averageEnergy := inject_Z e;
     WeeklyPattern.entryCount := 0 |}.

(** Baseline tables, in the order of the source. *)
Definition DEFAULT_DAILY_PATTERNS : list DailyPattern.t :=
  [ daily 6 45 30; daily 7 50 35; daily 8 55 45;
    daily 9 60 60; daily 10 65 70; daily 11 68 75;
    daily 12 70 75; daily 13 68 70;
    daily 14 60 55; daily 15 58 50;
    daily 16 62 60; daily 17 65 65; daily 18 63 60;
    daily 19 60 55; daily 20 58 50; daily 21 55 45;
    daily 22 50 35; daily 23 45 30; daily 0 40 25;
    daily 1 35 20; daily 2 30 15; daily 3 28 12;
    daily 4 30 15; daily 5 35 20 ]%Z.

Definition DEFAULT_WEEKLY_PATTERNS : list WeeklyPattern.t :=
  [ weekly 0 55 60; weekly 1 50 65; weekly 2 65 70; weekly 3 68 72;
    weekly 4 70 70; weekly 5 72 68; weekly 6 75 65 ]%Z.

(** [patterns.find(p => p.hour === hour)] *)
Definition find_hour (h : Z) (patterns : list DailyPattern.t) : option DailyPattern.t :=
  List.find (fun p => (DailyPattern.hour p =? h)%Z) patterns.

(** [patterns.find(p => p.dayOfWeek === day)] *)
Definition find_day (d : Z) (patterns : list WeeklyPattern.t) : option WeeklyPattern.t :=
  List.find (fun p => (WeeklyPattern.dayOfWeek p =? d)%Z) patterns.

Definition neutral_hour (h : Z) : DailyPattern.t :=
  {| DailyPattern.hour := h;
     DailyPattern.averageMood := 50;
     DailyPattern.averageEnergy := 50;
     DailyPattern.entryCount := 0 |}.

Definition neutral_day (d : Z) : WeeklyPattern.t :=
  {| WeeklyPattern.dayOfWeek := d;
     WeeklyPattern.averageMood := 60;
     WeeklyPattern.averageEnergy := 60;
     WeeklyPattern.entryCount := 0 |}.

Definition getDefaultPatternForHour (h : Z) : DailyPattern.t :=
  default (neutral_hour h) (find_hour h DEFAULT_DAILY_PATTERNS).

Definition getDefaultPatternForDay (d : Z) : WeeklyPattern.t :=
  default (neutral_day d) (find_day d DEFAULT_WEEKLY_PATTERNS).

(** ** The store, the world and asynchronous computations *)

(** The keys of [STORAGE_KEYS] that the predictor reads or writes; an absent
    key is [None].  Values are kept parsed. *)
Record Storage := {
  ENTRIES : option (list MoodEnergyEntry);
  DAILY_PATTERNS : option (list DailyPattern.t);
  WEEKLY_PATTERNS : option (list WeeklyPattern.t);
  LAST_ENTRY : option MoodEnergyEntry;
}.

Record World := {
  storage : Storage;
  clock : Z;        (* what [Date.now()] returns *)
  draws : nat;      (* how many [Math.random()] values were consumed *)
}.

(** The error taxonomy the specification names; nothing in the source
    raises either of them. *)
Inductive Failure := InvalidInput | InvalidRange.

Inductive Outcome (A : Type) :=
| Resolved (a : A)
| Rejected (e : Failure).
Arguments Resolved {A} a.
Arguments Rejected {A} e.

Definition Async (A : Type) : Type := World -> Outcome A * World.

Definition ret {A} (a : A) : Async A := fun w => (Resolved a, w).

Definition bind {A B} (m : Async A) (k : A -> Async B) : Async B :=
  fun w =>
    match m w with
    | (Resolved a, w') => k a w'
    | (Rejected e, w') => (Rejected e, w')
    end.

Notation "'await' x <- m ; k" := (bind m (fun x => k))
  (at level 10, x name, m at level 100, k at level 200).
Notation "'await_' m ; k" := (bind m (fun _ => k))
  (at level 10, m at level 100, k at level 200).

Definition with_storage (f : Storage -> Storage) : Async unit :=
  fun w => (Resolved tt, {| storage := f (storage w); clock := clock w; draws := draws w |}).

Module LocalStateManager.

Definition getEntries : Async (list MoodEnergyEntry) :=
  fun w => (Resolved (default [] (ENTRIES (storage w))), w).

Definition getDailyPatterns : Async (list DailyPattern.t) :=
  fun w => (Resolved (default [] (DAILY_PATTERNS (storage w))), w).

Definition getWeeklyPatterns : Async (list WeeklyPattern.t) :=
  fun w => (Resolved (default [] (WEEKLY_PATTERNS (storage w))), w).

Definition saveDailyPatterns (patterns : list DailyPattern.t) : Async unit :=
  with_storage (fun s =>
    {| ENTRIES := ENTRIES s;
       DAILY_PATTERNS := Some patterns;
       WEEKLY_PATTERNS := WEEKLY_PATTERNS s;
       LAST_ENTRY := LAST_ENTRY s |}).

Definition saveWeeklyPatterns (patterns : list WeeklyPattern.t) : Async unit :=
  with_storage (fun s =>
    {| ENTRIES := ENTRIES s;
       DAILY_PATTERNS := DAILY_PATTERNS s;
       WEEKLY_PATTERNS := Some patterns;
       LAST_ENTRY := LAST_ENTRY s |}).

Definition getLastEntry : Async (option MoodEnergyEntry) :=
  fun w => (Resolved (LAST_ENTRY (storage w)), w).

(** [entries.filter(e => e.id !== entry.id)] followed by [entry]; the list is
    written under [ENTRIES] and then the entry under [LAST_ENTRY]. *)
Definition saveEntry (entry : MoodEnergyEntry) : Async unit :=
  await entries <- getEntries;
  let updatedEntries :=
    List.filter (fun e => negb (String.eqb (id e) (id entry))) entries ++ [entry] in
  await_ with_storage (fun s =>
    {| ENTRIES := Some updatedEntries;
       DAILY_PATTERNS := DAILY_PATTERNS s;
       WEEKLY_PATTERNS := WEEKLY_PATTERNS s;
       LAST_ENTRY := LAST_ENTRY s |});
  with_storage (fun s =>
    {| ENTRIES := ENTRIES s;
       DAILY_PATTERNS := DAILY_PATTERNS s;
       WEEKLY_PATTERNS := WEEKLY_PATTERNS s;
       LAST_ENTRY := Some entry |}).

(** One insertion of the sort below: [x] goes in front of the first element
    whose timestamp is not smaller. *)
Fixpoint insert_by_timestamp (x : MoodEnergyEntry) (l : list MoodEnergyEntry)
  : list MoodEnergyEntry :=
  match l with
  | [] => [x]
  | y :: l' =>
      if (timestamp y <? timestamp x)%Z then y :: insert_by_timestamp x l'
      else x :: l
  end.

(** [list.sort((a, b) => a.timestamp - b.timestamp)]: the sort of the
    language is stable, so its result is the one of this insertion sort. *)
Definition sort_by_timestamp (l : list MoodEnergyEntry) : list MoodEnergyEntry :=
  foldr insert_by_timestamp [] l.

Definition getEntriesInRange (startTime endTime : Z) : Async (list MoodEnergyEntry) :=
  await entries <- getEntries;
  ret (sort_by_timestamp
         (List.filter (fun entry => ((startTime <=? timestamp entry)
                                     && (timestamp entry <=? endTime))%Z) entries)).

(** [AsyncStorage.multiRemove(Object.values(STORAGE_KEYS))]: every key of the
    store goes (the settings key, which nothing else reads or writes, is not
    part of [Storage]). *)
Definition clearAllData : Async unit :=
  with_storage (fun _ =>
    {| ENTRIES := None; DAILY_PATTERNS := None;
       WEEKLY_PATTERNS := None; LAST_ENTRY := None |}).

End LocalStateManager.

Definition Date_now : Async Z := fun w => (Resolved (clock w), w).

(** ** Grouping: the [patterns] object of the two analyses *)

Record Bucket := {
  moods : list Q;
  energies : list Q;
}.

Definition empty_bucket : Bucket := {| moods := []; energies := [] |}.

(** One round of the [entries.forEach] body, for the key function [key]. *)
Definition group_entry (key : Z -> Z) (patterns : gmap Z Bucket) (entry : MoodEnergyEntry)
  : gmap Z Bucket :=
  let k := key (timestamp entry) in
  let patterns := match patterns !! k with
                  | Some _ => patterns
                  | None => <[k := empty_bucket]> patterns
                  end in
  match patterns !! k with
  | Some b => <[k := {| moods := moods b ++ [mood entry];
                        energies := energies b ++ [energy entry] |}]> patterns
  | None => patterns
  end.

Definition group_entries (key : Z -> Z) (entries : list MoodEnergyEntry) : gmap Z Bucket :=
  fold_left (group_entry key) entries ∅.

(** The blend of both analyses: [Math.round(avg * dataWeight + base * defaultWeight)]. *)
Definition blend (avg weight base : Q) : Z :=
  let dataWeight := weight in
  let defaultWeight := (1 - dataWeight)%Q in
  Math_round (avg * dataWeight + base * defaultWeight).

(** ** The arithmetic of the language

    A JavaScript [number] is a binary64 double and every operation rounds.
    Where a property depends on the exact value an analysis computes, the
    analysis is read with this arithmetic: the kernel's primitive floats are
    IEEE 754 binary64.  A rational of the store stands for the double nearest
    to it (the quotient of numerator and denominator, both exact for the
    numbers the application stores). *)
Module Binary64.
Import Floats.
Local Open Scope float_scope.

(** The double nearest to an integer. *)
Definition of_Z (z : Z) : float := SF2Prim (binary_normalize prec emax z 0 false).

Definition of_nat (n : nat) : float := of_Z (Z.of_nat n).

(** The double a decimal number of the store is read as. *)
Definition of_Q (q : Q) : float := of_Z (Qnum q) / of_Z (Z.pos (Qden q)).

(** The literals [0.8] and [0.7] of the source. *)
Definition lit_0_8 : float := 0x1.999999999999ap-1.
Definition lit_0_7 : float := 0x1.6666666666666p-1.

(** The rational a finite double is. *)
Definition value (x : float) : option Q :=
  match Prim2SF x with
  | S754_zero _ => Some 0%Q
  | S754_finite s m e =>
      let v := if (0 <=? e)%Z then inject_Z (Z.pos m * 2 ^ e)
               else (inject_Z (Z.pos m) / inject_Z (2 ^ (- e)))%Q in
      Some (if s then (- v)%Q else v)
  | _ => None
  end.

(** [Math.round]: a double that is not finite, or is a zero, is returned as
    it is; otherwise the nearest integer, halves going up, with the sign of
    the argument when that integer is zero. *)
Definition Math_round (x : float) : float :=
  match Prim2SF x, value x with
  | S754_finite s _ _, Some v =>
      let z := JS.Math_round v in
      if (z =? 0)%Z then (if s then neg_zero else zero) else of_Z z
  | _, _ => x
  end.

(** [Math.min] of two numbers. *)
Definition Math_min (x y : float) : float :=
  if (is_nan x || is_nan y)%bool then nan
  else if x <? y then x
  else if y <? x then y
  else if get_sign x then x else y.

(** [values.reduce((a, b) => a + b, 0)] *)
Definition sum (values : list float) : float := fold_left add values zero.

(** [x || d] on numbers: zeros and NaN are falsy. *)
Definition or_else (x d : float) : float :=
  if ((x =? zero) || is_nan x)%bool then d else x.

(** [o?.field || d] *)
Definition field_or {A} (field : A -> float) (o : option A) (d : float) : float :=
  match o with
  | Some x => or_else (field x) d
  | None => d
  end.

Module Daily.
Record t := {
  hour : Z;
  averageMood : float;
  averageEnergy : float;
  entryCount : Z;
}.
End Daily.

Module Weekly.
Record t := {
  dayOfWeek : Z;
  averageMood : float;
  averageEnergy : float;
  entryCount : Z;
}.
End Weekly.

(** A pattern of the tables (or the neutral one) as the object it is. *)
Definition daily_of (p : DailyPattern.t) : Daily.t :=
  {| Daily.hour := DailyPattern.hour p;
     Daily.averageMood := of_Q (DailyPattern.averageMood p);
     Daily.averageEnergy := of_Q (DailyPattern.averageEnergy p);
     Daily.entryCount := DailyPattern.entryCount p |}.

Definition weekly_of (p : WeeklyPattern.t) : Weekly.t :=
  {| Weekly.dayOfWeek := WeeklyPattern.dayOfWeek p;
     Weekly.averageMood := of_Q (WeeklyPattern.averageMood p);
     Weekly.averageEnergy := of_Q (WeeklyPattern.averageEnergy p);
     Weekly.entryCount := WeeklyPattern.entryCount p |}.

(** [Math.round(avg * dataWeight + base * defaultWeight)] *)
Definition blend (avg weight base : float) : float :=
  let dataWeight := weight in
  let defaultWeight := 1 - dataWeight in
  Math_round (avg * dataWeight + base * defaultWeight).

(** The body of the hour loop of [analyzeDailyPatterns]. *)
Definition daily_entry (patterns : gmap Z Bucket) (hour : Z) : Daily.t :=
  let defaultPattern := find_hour hour DEFAULT_DAILY_PATTERNS in
  let fallback := daily_of (default (neutral_hour hour) defaultPattern) in
  match patterns !! hour with
  | Some b =>
      if (0 <? length (moods b))%nat then
        let avgMood := sum (map of_Q (moods b)) / of_nat (length (moods b)) in
        let avgEnergy := sum (map of_Q (energies b)) / of_nat (length (energies b)) in
        let dataWeight := Math_min (of_nat (length (moods b)) / 10) lit_0_8 in
        let blendedMood :=
          blend avgMood dataWeight
            (field_or (fun p => of_Q (DailyPattern.averageMood p)) defaultPattern 50) in
        let blendedEnergy :=
          blend avgEnergy dataWeight
            (field_or (fun p => of_Q (DailyPattern.averageEnergy p)) defaultPattern 50) in
        {| Daily.hour := hour;
           Daily.averageMood := blendedMood;
           Daily.averageEnergy := blendedEnergy;
           Daily.entryCount := Z.of_nat (length (moods b)) |}
      else fallback
  | None => fallback
  end.

(** The list [analyzeDailyPatterns] builds, saves and returns, for the
    calendar function [getHours] and the stored entries. *)
Definition dailyPatterns (getHours : Z -> Z) (entries : list MoodEnergyEntry)
  : list Daily.t :=
  let patterns := group_entries getHours entries in
  fold_left (fun acc hour => acc ++ [daily_entry patterns hour]) (seqZ 0 24) [].

(** The body of the day loop of [analyzeWeeklyPatterns]. *)
Definition weekly_entry (patterns : gmap Z Bucket) (day : Z) : Weekly.t :=
  let defaultPattern := find_day day DEFAULT_WEEKLY_PATTERNS in
  let fallback := weekly_of (default (neutral_day day) defaultPattern) in
  match patterns !! day with
  | Some b =>
      if (0 <? length (moods b))%nat then
        let avgMood := sum (map of_Q (moods b)) / of_nat (length (moods b)) in
        let avgEnergy := sum (map of_Q (energies b)) / of_nat (length (energies b)) in
        let dataWeight := Math_min (of_nat (length (moods b)) / 15) lit_0_7 in
        let blendedMood :=
          blend avgMood dataWeight
            (field_or (fun p => of_Q (WeeklyPattern.averageMood p)) defaultPattern 60) in
        let blendedEnergy :=
          blend avgEnergy dataWeight
            (field_or (fun p => of_Q (WeeklyPattern.averageEnergy p)) defaultPattern 60) in
        {| Weekly.dayOfWeek := day;
           Weekly.averageMood := blendedMood;
           Weekly.averageEnergy := blendedEnergy;
           Weekly.entryCount := Z.of_nat (length (moods b)) |}
      else fallback
  | None => fallback
  end.

(** The list [analyzeWeeklyPatterns] builds, saves and returns. *)
Definition weeklyPatterns (getDay : Z -> Z) (entries : list MoodEnergyEntry)
  : list Weekly.t :=
  let patterns := group_entries getDay entries in
  fold_left (fun acc day => acc ++ [weekly_entry patterns day]) (seqZ 0 7) [].

End Binary64.

(** ** The insights screen ([src/app/(tabs)/insights.tsx])

    The pure queries of the screen over the lists it holds. *)
Module Insights.

Definition getAverages (entries : list MoodEnergyEntry) : Z * Z :=
  if (length entries =? 0)%nat then (0%Z, 0%Z)
  else
    let totalMood := fold_left (fun sum entry => (sum + mood entry)%Q) entries 0%Q in
    let totalEnergy := fold_left (fun sum entry => (sum + energy entry)%Q) entries 0%Q in
    (Math_round (totalMood / len entries), Math_round (totalEnergy / len entries)).

Definition getTrends (entries : list MoodEnergyEntry) : Z * Z :=
  if (length entries <? 2)%nat then (0%Z, 0%Z)
  else
    let recent := slice_last ((length entries + 1) / 2) entries in
    let older := take (length entries / 2) entries in
    let recentMoodAvg := (fold_left (fun sum e => sum + mood e) recent 0 / len recent)%Q in
    let olderMoodAvg := (fold_left (fun sum e => sum + mood e) older 0 / len older)%Q in
    let recentEnergyAvg := (fold_left (fun sum e => sum + energy e) recent 0 / len recent)%Q in
    let olderEnergyAvg := (fold_left (fun sum e => sum + energy e) older 0 / len older)%Q in
    (Math_round (recentMoodAvg - olderMoodAvg),
     Math_round (recentEnergyAvg - olderEnergyAvg)).

Definition dayNames : list string :=
  ["Sunday"; "Monday"; "Tuesday"; "Wednesday"; "Thursday"; "Friday"; "Saturday"]%string.

(** The callback of [weeklyPatterns.reduce]. *)
Definition better_day (best current : WeeklyPattern.t) : WeeklyPattern.t :=
  if gt_number (WeeklyPattern.averageMood current + WeeklyPattern.averageEnergy current)
               (WeeklyPattern.averageMood best + WeeklyPattern.averageEnergy best)
  then current else best.

(** [None] is [undefined]: what indexing [dayNames] out of range gives. *)
Definition getBestDayOfWeek (weeklyPatterns : list WeeklyPattern.t) : option string :=
  match weeklyPatterns with
  | [] => Some "Not enough data"%string
  | first :: rest =>
      let bestDay := fold_left better_day rest first in
      if (0 <=? WeeklyPattern.dayOfWeek bestDay)%Z
      then dayNames !! Z.to_nat (WeeklyPattern.dayOfWeek bestDay)
      else None
  end.

End Insights.

(** ** Quantities the properties speak about *)

(** The samples of [entries] that fall in bucket [k] under the calendar
    function [key], in their stored order. *)
Definition bucket_of (key : Z -> Z) (k : Z) (entries : list MoodEnergyEntry)
  : list MoodEnergyEntry :=
  List.filter (fun e => (key (timestamp e) =? k)%Z) entries.

Definition raw_mean (values : list Q) : Q := (sum values / len values)%Q.

Definition hourly_weight (n : nat) : Q := Math_min (inject_Z (Z.of_nat n) / 10) 0.8.
Definition weekly_weight (n : nat) : Q := Math_min (inject_Z (Z.of_nat n) / 15) 0.7.

(** The sum of a list of counts. *)
Definition total (counts : list Z) : Z := foldr Z.add 0%Z counts.

Definition stored_entries (w : World) : list MoodEnergyEntry :=
  default [] (ENTRIES (storage w)).

(** The threshold a prediction point is compared with. *)
Definition dip_threshold (p : PredictionData) : Z :=
  if gt_number (confidence p) 0.7 then 30%Z else 35%Z.

(** ** A concrete device

    A device whose local calendar is UTC, with a rational sine (Bhaskara's
    approximation) and a fixed pseudo-random sequence; used to run the
    predictor on concrete inputs. *)
Module Device.

Definition getHours (t : Z) : Z := ((t / 3600000) mod 24)%Z.

(** 1 January 1970 was a Thursday. *)
Definition getDay (t : Z) : Z := ((t / 86400000 + 4) mod 7)%Z.

Definition half_wave (x : Q) : Q :=
  (16 * x * (1 - x) / (5 - 4 * x * (1 - x)))%Q.

Definition sin_pi (x : Q) : Q :=
  if Qle_bool x 0 then (- half_wave (- x))%Q
  else if Qle_bool x 1 then half_wave x
  else (- half_wave (x - 1))%Q.

Definition random_values (n : nat) : Q :=
  (inject_Z ((Z.of_nat n * 7919 + 13) mod 100) / 100)%Q.

Definition digit (n : Z) : string :=
  String (Ascii.ascii_of_nat (48 + Z.to_nat n)) EmptyString.

Definition two_digits (n : Z) : string :=
  String.append (digit (n / 10)) (digit (n mod 10)).

Definition toLocaleTimeString (t : Z) : string :=
  String.append (two_digits (getHours t))
    (String.append ":" (two_digits ((t / 60000) mod 60)%Z)).

(** 14 November 2023, 09:00 UTC, and the same hour [d] days later. *)
Definition nine_am (d : Z) : Z := (1699952400000 + d * 86400000)%Z.

Definition sample (d : Z) (m e : Q) : MoodEnergyEntry :=
  {| id := two_digits d; timestamp := nine_am d; mood := m; energy := e |}.

Definition world_of (entries : list MoodEnergyEntry) : World :=
  {| storage := {| ENTRIES := Some entries; DAILY_PATTERNS := None;
                   WEEKLY_PATTERNS := None; LAST_ENTRY := None |};
     clock := nine_am 30;
     draws := 0 |}.

(** A fresh install: nothing stored. *)
Definition fresh : World :=
  {| storage := {| ENTRIES := None; DAILY_PATTERNS := None;
                   WEEKLY_PATTERNS := None; LAST_ENTRY := None |};
     clock := nine_am 30;
     draws := 0 |}.

(** Twenty samples at 09:00 on consecutive days, mood and energy 80. *)
Definition twenty_at_nine : list MoodEnergyEntry :=
  map (fun d => sample d 80 80) (seqZ 0 20).

(** Eight samples at 09:00: six with mood 59, two with mood 60. *)
Definition eight_at_nine : list MoodEnergyEntry :=
  map (fun d => sample d (if (d <? 6)%Z then 59 else 60) 60) (seqZ 0 8).

(** Six samples at 09:00: five with mood 66, one with mood 65. *)
Definition six_at_nine : list MoodEnergyEntry :=
  map (fun d => sample d (if (d <? 5)%Z then 66 else 65) 60) (seqZ 0 6).

(** Fourteen samples at 09:00 on consecutive Mondays (20 November 2023 is
    one): eight with mood 54, six with mood 53. *)
Definition fourteen_mondays : list MoodEnergyEntry :=
  map (fun k => sample (6 + 7 * k) (if (k <? 8)%Z then 54 else 53) 60) (seqZ 0 14).

(** Ten later samples, at 09:00 on days 10 to 19, with a rising mood. *)
Definition recent : list MoodEnergyEntry :=
  map (fun d => sample d (inject_Z (40 + 2 * d)) 55) (seqZ 10 10).

Definition long_history : list MoodEnergyEntry := eight_at_nine ++ recent.

(** A point whose energy equals the threshold of a confident forecast. *)
Definition on_threshold : PredictionData :=
  {| p_timestamp := nine_am 31; predictedMood := 50;
     predictedEnergy := 30; confidence := 0.9 |}.

End Device.

(** Evaluating a closed list, and checking a property on each element of a
    closed list, by computation. *)
Ltac compute_list l :=
  let l' := eval vm_compute in l in change l with l'.
Ltac each_by_computation :=
  repeat (apply List.Forall_cons; [by vm_compute|]); apply List.Forall_nil.

(** ** The predictor *)

Section Predictor.

(** [new Date(t).getHours()] and [new Date(t).getDay()] in the device's
    local calendar. *)
Variable getHours : Z -> Z.
Variable getDay : Z -> Z.
(** [x => Math.sin(x * Math.PI)] *)
Variable sin_pi : Q -> Q.
(** The values [Math.random()] returns, in call order. *)
Variable random_values : nat -> Q.
(** [t => new Date(t).toLocaleTimeString('en-US', ...)] *)
Variable toLocaleTimeString : Z -> string.

Definition Math_random : Async Q :=
  fun w => (Resolved (random_values (draws w)),
            {| storage := storage w; clock := clock w; draws := S (draws w) |}).

(** The body of the [for (let hour = 0; hour < 24; hour++)] loop. *)
Definition daily_entry (patterns : gmap Z Bucket) (hour : Z) : DailyPattern.t :=
  let defaultPattern := find_hour hour DEFAULT_DAILY_PATTERNS in
  let fallback := default (neutral_hour hour) defaultPattern in
  match patterns !! hour with
  | Some b =>
      if (0 <? length (moods b))%nat then
        let avgMood := (sum (moods b) / len (moods b))%Q in
        let avgEnergy := (sum (energies b) / len (energies b))%Q in
        let dataWeight := Math_min (len (moods b) / 10) 0.8 in
        let blendedMood :=
          blend avgMood dataWeight
            (field_or DailyPattern.averageMood defaultPattern 50) in
        let blendedEnergy :=
          blend avgEnergy dataWeight
            (field_or DailyPattern.averageEnergy defaultPattern 50) in
        {| DailyPattern.hour := hour;
           DailyPattern.averageMood := inject_Z blendedMood;
           DailyPattern.averageEnergy := inject_Z blendedEnergy;
           DailyPattern.entryCount := Z.of_nat (length (moods b)) |}
      else fallback
  | None => fallback
  end.

Definition analyzeDailyPatterns : Async (list DailyPattern.t) :=
  await entries <- LocalStateManager.getEntries;
  let patterns := group_entries getHours entries in
  let dailyPatterns :=
    fold_left (fun acc hour => acc ++ [daily_entry patterns hour]) (seqZ 0 24) [] in
  await_ LocalStateManager.saveDailyPatterns dailyPatterns;
  ret dailyPatterns.

(** The body of the [for (let day = 0; day < 7; day++)] loop. *)
Definition weekly_entry (patterns : gmap Z Bucket) (day : Z) : WeeklyPattern.t :=
  let defaultPattern := find_day day DEFAULT_WEEKLY_PATTERNS in
  let fallback := default (neutral_day day) defaultPattern in
  match patterns !! day with
  | Some b =>
      if (0 <? length (moods b))%nat then
        let avgMood := (sum (moods b) / len (moods b))%Q in
        let avgEnergy := (sum (energies b) / len (energies b))%Q in
        let dataWeight := Math_min (len (moods b) / 15) 0.7 in
        let blendedMood :=
          blend avgMood dataWeight
            (field_or WeeklyPattern.averageMood defaultPattern 60) in
        let blendedEnergy :=
          blend avgEnergy dataWeight
            (field_or WeeklyPattern.averageEnergy defaultPattern 60) in
        {| WeeklyPattern.dayOfWeek := day;
           WeeklyPattern.averageMood := inject_Z blendedMood;
           WeeklyPattern.averageEnergy := inject_Z blendedEnergy;
           WeeklyPattern.entryCount := Z.of_nat (length (moods b)) |}
      else fallback
  | None => fallback
  end.

Definition analyzeWeeklyPatterns : Async (list WeeklyPattern.t) :=
  await entries <- LocalStateManager.getEntries;
  let patterns := group_entries getDay entries in
  let weeklyPatterns :=
    fold_left (fun acc day => acc ++ [weekly_entry patterns day]) (seqZ 0 7) [] in
  await_ LocalStateManager.saveWeeklyPatterns weeklyPatterns;
  ret weeklyPatterns.

Definition calculateTrend (values : list Q) : Q :=
  if (length values <? 2)%nat then 0%Q
  else
    let recent := slice_last 3 values in
    let older := slice_window 6 3 values in
    if (length older =? 0)%nat then 0%Q
    else
      let recentAvg := (sum recent / len recent)%Q in
      let olderAvg := (sum older / len older)%Q in
      (recentAvg - olderAvg)%Q.

Definition getTimeBasedVariation (hour hoursAhead : Z) : Async (Q * Q) :=
  let circadianMood := (sin_pi ((inject_Z hour - 6) / 24 * 2) * 3)%Q in
  let circadianEnergy := (sin_pi ((inject_Z hour - 4) / 24 * 2) * 4)%Q in
  let randomFactor := Math_max 0.2 (1 - inject_Z hoursAhead * 0.05) in
  await r1 <- Math_random;
  let moodNoise := ((r1 - 0.5) * 4 * randomFactor)%Q in
  await r2 <- Math_random;
  let energyNoise := ((r2 - 0.5) * 5 * randomFactor)%Q in
  ret ((circadianMood + moodNoise)%Q, (circadianEnergy + energyNoise)%Q).

(** The confidence of one step before it is rounded. *)
Definition step_confidence (hourCount dayCount : Z) (lastEntries : list MoodEnergyEntry) : Q :=
  let confidence := 0.6%Q in
  let confidence :=
    if ((0 <? hourCount)%Z || (0 <? dayCount)%Z)%bool then
      let hourConfidence := Math_min (inject_Z hourCount / 10) 1 in
      let dayConfidence := Math_min (inject_Z dayCount / 15) 1 in
      Math_max 0.6 ((hourConfidence + dayConfidence) / 2)
    else confidence in
  if (3 <=? length lastEntries)%nat then Math_min 1 (confidence + 0.1) else confidence.

(** The body of the [for (let i = 1; i <= hoursAhead; i++)] loop. *)
Definition predict_step (dailyPatterns : list DailyPattern.t)
    (weeklyPatterns : list WeeklyPattern.t) (lastEntries : list MoodEnergyEntry)
    (now i : Z) : Async PredictionData :=
  let futureTime := (now + i * 60 * 60 * 1000)%Z in
  let futureHour := getHours futureTime in
  let futureDayOfWeek := getDay futureTime in
  let hourPattern :=
    match find_hour futureHour dailyPatterns with
    | Some p => p
    | None => default (neutral_hour futureHour) (find_hour futureHour DEFAULT_DAILY_PATTERNS)
    end in
  let dayPattern :=
    match find_day futureDayOfWeek weeklyPatterns with
    | Some p => p
    | None => default (neutral_day futureDayOfWeek)
                      (find_day futureDayOfWeek DEFAULT_WEEKLY_PATTERNS)
    end in
  let predictedMood :=
    ((DailyPattern.averageMood hourPattern + WeeklyPattern.averageMood dayPattern) / 2)%Q in
  let predictedEnergy :=
    ((DailyPattern.averageEnergy hourPattern + WeeklyPattern.averageEnergy dayPattern) / 2)%Q in
  let confidence :=
    step_confidence (DailyPattern.entryCount hourPattern)
                    (WeeklyPattern.entryCount dayPattern) lastEntries in
  let '(predictedMood, predictedEnergy) :=
    if (3 <=? length lastEntries)%nat then
      let moodTrend := calculateTrend (map mood lastEntries) in
      let energyTrend := calculateTrend (map energy lastEntries) in
      let trendWeight := Math_max 0.1 (0.4 - inject_Z i * 0.03) in
      ((predictedMood + moodTrend * trendWeight)%Q,
       (predictedEnergy + energyTrend * trendWeight)%Q)
    else (predictedMood, predictedEnergy) in
  await timeVariation <- getTimeBasedVariation futureHour i;
  let predictedMood := (predictedMood + fst timeVariation)%Q in
  let predictedEnergy := (predictedEnergy + snd timeVariation)%Q in
  let predictedMood := Math_max 10 (Math_min 90 predictedMood) in
  let predictedEnergy := Math_max 10 (Math_min 90 predictedEnergy) in
  ret {| p_timestamp := futureTime;
         predictedMood := Math_round predictedMood;
         predictedEnergy := Math_round predictedEnergy;
         confidence := (inject_Z (Math_round (confidence * 100)) / 100)%Q |}.

(** [rounds] more iterations of the loop, the next index being [i]. *)
Fixpoint predict_loop (dailyPatterns : list DailyPattern.t)
    (weeklyPatterns : list WeeklyPattern.t) (lastEntries : list MoodEnergyEntry)
    (now : Z) (rounds : nat) (i : Z) (predictions : list PredictionData)
  : Async (list PredictionData) :=
  match rounds with
  | O => ret predictions
  | S rounds' =>
      await p <- predict_step dailyPatterns weeklyPatterns lastEntries now i;
      predict_loop dailyPatterns weeklyPatterns lastEntries now rounds' (i + 1)%Z
                   (predictions ++ [p])
  end.

Definition generatePredictions (hoursAhead : Z) : Async (list PredictionData) :=
  await dailyPatterns <- LocalStateManager.getDailyPatterns;
  await weeklyPatterns <- LocalStateManager.getWeeklyPatterns;
  await recentEntries <- LocalStateManager.getEntries;
  let lastEntries := slice_last 10 recentEntries in
  await now <- Date_now;
  predict_loop dailyPatterns weeklyPatterns lastEntries now (Z.to_nat hoursAhead) 1 [].

(** The predicate of [predictions.filter(...)] in [findEnergyDips]. *)
Definition is_dip (p : PredictionData) : bool :=
  let threshold := if gt_number (confidence p) 0.7 then 30%Z else 35%Z in
  (predictedEnergy p <? threshold)%Z.

Definition energy_dips (predictions : list PredictionData) : list PredictionData :=
  List.filter is_dip predictions.

Definition findEnergyDips : Async (list EnergyDip) :=
  await predictions <- generatePredictions 12;
  let dips := energy_dips predictions in
  ret (map (fun dip => {| time := toLocaleTimeString (p_timestamp dip);
                          dip_energy := predictedEnergy dip |}) dips).

(** [getUpcomingEnergyDip] of the insights screen, over the predictions it
    holds. *)
Definition getUpcomingEnergyDip (predictions : list PredictionData) : option EnergyDip :=
  let energyDips := List.filter (fun p => (predictedEnergy p <? 40)%Z) predictions in
  match energyDips with
  | [] => None
  | nextDip :: _ =>
      Some {| time := toLocaleTimeString (p_timestamp nextDip);
              dip_energy := predictedEnergy nextDip |}
  end.

(** *** Rounding, minimum and maximum *)

Lemma Qfloor_ub (x : Q) (z : Z) : (x < inject_Z (z + 1))%Q -> (Qfloor x <= z)%Z.
Proof.
  intros Hx. pose proof (Qfloor_le x) as Hfl.
  assert (Hlt : (inject_Z (Qfloor x) < inject_Z (z + 1))%Q) by lra.
  rewrite <- Zlt_Qlt in Hlt. lia.
Qed.

Lemma Qfloor_lb (x : Q) (z : Z) : (inject_Z z <= x)%Q -> (z <= Qfloor x)%Z.
Proof. intros Hx. rewrite <- (Qfloor_Z z). by apply Qfloor_resp_le. Qed.

Lemma Math_round_between (lo hi : Z) (x : Q) :
  (inject_Z lo <= x)%Q -> (x <= inject_Z hi)%Q ->
  (lo <= Math_round x <= hi)%Z.
Proof.
  intros Hlo Hhi. unfold Math_round. split.
  - apply Qfloor_lb. lra.
  - apply Qfloor_ub. rewrite inject_Z_plus. change (inject_Z 1) with 1%Q. lra.
Qed.

Lemma Math_round_comp (x y : Q) : x == y -> Math_round x = Math_round y.
Proof. intros Hxy. unfold Math_round. apply Qfloor_comp. by rewrite Hxy. Qed.

Lemma clamp_between (lo hi x : Q) :
  (lo <= hi)%Q -> (lo <= Math_max lo (Math_min hi x) <= hi)%Q.
Proof.
  intros Hle. unfold Math_max, Math_min. split.
  - apply Q.le_max_l.
  - apply Q.max_lub; [done | apply Q.le_min_l].
Qed.

(** *** Loops that push *)

Lemma fold_push {A B} (f : A -> B) (l : list A) (acc : list B) :
  fold_left (fun acc x => acc ++ [f x]) l acc = acc ++ map f l.
Proof.
  revert acc. induction l as [|x l IH]; intros acc; simpl.
  - by rewrite app_nil_r.
  - rewrite IH. by rewrite <- app_assoc.
Qed.

(** *** Grouping *)

Lemma group_entry_lookup (key : Z -> Z) (patterns : gmap Z Bucket)
    (e : MoodEnergyEntry) (k : Z) :
  group_entry key patterns e !! k =
    if decide (key (timestamp e) = k) then
      let b := default empty_bucket (patterns !! k) in
      Some {| moods := moods b ++ [mood e]; energies := energies b ++ [energy e] |}
    else patterns !! k.
Proof.
  unfold group_entry.
  destruct (patterns !! key (timestamp e)) as [b|] eqn:Hb.
  - rewrite Hb. case_decide as Hk.
    + subst k. rewrite lookup_insert_eq. by rewrite Hb.
    + by rewrite lookup_insert_ne.
  - rewrite lookup_insert_eq. case_decide as Hk.
    + subst k. rewrite lookup_insert_eq. by rewrite Hb.
    + by rewrite !lookup_insert_ne.
Qed.

Lemma bucket_of_snoc (key : Z -> Z) (k : Z) (es : list MoodEnergyEntry)
    (e : MoodEnergyEntry) :
  bucket_of key k (es ++ [e]) =
    bucket_of key k es ++ (if decide (key (timestamp e) = k) then [e] else []).
Proof.
  unfold bucket_of. rewrite List.filter_app. simpl.
  case_decide as Hk.
  - by rewrite (proj2 (Z.eqb_eq _ _) Hk).
  - by rewrite (proj2 (Z.eqb_neq _ _) Hk).
Qed.

Lemma bucket_of_all (key : Z -> Z) (k : Z) (es : list MoodEnergyEntry) :
  Forall (fun e => key (timestamp e) = k) es -> bucket_of key k es = es.
Proof.
  unfold bucket_of. induction 1 as [|e es He _ IH]; simpl; [done|].
  by rewrite (proj2 (Z.eqb_eq _ _) He), IH.
Qed.

(** The object built by [forEach] holds, under each key that occurs, the
    moods and energies of that key's samples in stored order, and nothing
    under the other keys. *)
Lemma group_entries_lookup (key : Z -> Z) (es : list MoodEnergyEntry) (k : Z) :
  group_entries key es !! k =
    match bucket_of key k es with
    | [] => None
    | _ :: _ => Some {| moods := map mood (bucket_of key k es);
                        energies := map energy (bucket_of key k es) |}
    end.
Proof.
  induction es as [|e es IH] using rev_ind.
  - done.
  - unfold group_entries in *. rewrite fold_left_app. simpl.
    rewrite group_entry_lookup, bucket_of_snoc.
    case_decide as Hk.
    + rewrite IH. destruct (bucket_of key k es) as [|e0 b]; simpl.
      * done.
      * by rewrite !map_app.
    + rewrite IH, app_nil_r. done.
Qed.

Lemma group_entries_nil (key : Z -> Z) : group_entries key [] = ∅.
Proof. done. Qed.

(** *** The two analyses as one step on the world *)

Lemma analyzeDailyPatterns_run (w : World) :
  analyzeDailyPatterns w =
    let ps := map (daily_entry (group_entries getHours (stored_entries w))) (seqZ 0 24) in
    (Resolved ps,
     {| storage := {| ENTRIES := ENTRIES (storage w);
                      DAILY_PATTERNS := Some ps;
                      WEEKLY_PATTERNS := WEEKLY_PATTERNS (storage w);
                      LAST_ENTRY := LAST_ENTRY (storage w) |};
        clock := clock w; draws := draws w |}).
Proof.
  unfold analyzeDailyPatterns, bind, LocalStateManager.getEntries,
    LocalStateManager.saveDailyPatterns, with_storage, ret, stored_entries.
  cbv beta iota zeta. by rewrite fold_push.
Qed.

Lemma analyzeWeeklyPatterns_run (w : World) :
  analyzeWeeklyPatterns w =
    let ps := map (weekly_entry (group_entries getDay (stored_entries w))) (seqZ 0 7) in
    (Resolved ps,
     {| storage := {| ENTRIES := ENTRIES (storage w);
                      DAILY_PATTERNS := DAILY_PATTERNS (storage w);
                      WEEKLY_PATTERNS := Some ps;
                      LAST_ENTRY := LAST_ENTRY (storage w) |};
        clock := clock w; draws := draws w |}).
Proof.
  unfold analyzeWeeklyPatterns, bind, LocalStateManager.getEntries,
    LocalStateManager.saveWeeklyPatterns, with_storage, ret, stored_entries.
  cbv beta iota zeta. by rewrite fold_push.
Qed.

Lemma find_hour_key (h : Z) (l : list DailyPattern.t) (p : DailyPattern.t) :
  find_hour h l = Some p -> DailyPattern.hour p = h.
Proof. intros Hf. apply find_some in Hf as [_ Hf]. by apply Z.eqb_eq. Qed.

Lemma find_day_key (d : Z) (l : list WeeklyPattern.t) (p : WeeklyPattern.t) :
  find_day d l = Some p -> WeeklyPattern.dayOfWeek p = d.
Proof. intros Hf. apply find_some in Hf as [_ Hf]. by apply Z.eqb_eq. Qed.

Lemma daily_entry_hour (patterns : gmap Z Bucket) (h : Z) :
  DailyPattern.hour (daily_entry patterns h) = h.
Proof.
  unfold daily_entry.
  assert (Hfb : DailyPattern.hour
                  (default (neutral_hour h) (find_hour h DEFAULT_DAILY_PATTERNS)) = h).
  { destruct (find_hour h DEFAULT_DAILY_PATTERNS) as [p|] eqn:Hp; simpl.
    - by eapply find_hour_key.
    - done. }
  destruct (patterns !! h) as [b|]; [|done].
  by destruct (0 <? length (moods b))%nat.
Qed.

Lemma weekly_entry_day (patterns : gmap Z Bucket) (d : Z) :
  WeeklyPattern.dayOfWeek (weekly_entry patterns d) = d.
Proof.
  unfold weekly_entry.
  assert (Hfb : WeeklyPattern.dayOfWeek
                  (default (neutral_day d) (find_day d DEFAULT_WEEKLY_PATTERNS)) = d).
  { destruct (find_day d DEFAULT_WEEKLY_PATTERNS) as [p|] eqn:Hp; simpl.
    - by eapply find_day_key.
    - done. }
  destruct (patterns !! d) as [b|]; [|done].
  by destruct (0 <? length (moods b))%nat.
Qed.

Lemma map_key_id {A} (f : Z -> A) (key : A -> Z) (l : list Z) :
  (forall k, key (f k) = k) -> map key (map f l) = l.
Proof.
  intros Hk. induction l as [|k l IH]; simpl; [done|]. by rewrite Hk, IH.
Qed.

Lemma seqZ_24 : seqZ 0 24 =
  [0; 1; 2; 3; 4; 5; 6; 7; 8; 9; 10; 11; 12; 13; 14; 15; 16; 17; 18; 19; 20; 21; 22; 23]%Z.
Proof. reflexivity. Qed.

Lemma seqZ_7 : seqZ 0 7 = [0; 1; 2; 3; 4; 5; 6]%Z.
Proof. reflexivity. Qed.

Lemma each_hour (P : Z -> Prop) :
  Forall P (seqZ 0 24) -> forall h, (0 <= h < 24)%Z -> P h.
Proof. intros HF h Hh. rewrite Forall_seqZ in HF. apply HF. lia. Qed.

Lemma each_day (P : Z -> Prop) :
  Forall P (seqZ 0 7) -> forall d, (0 <= d < 7)%Z -> P d.
Proof. intros HF d Hd. rewrite Forall_seqZ in HF. apply HF. lia. Qed.

Lemma lookup_map_seqZ {A} (f : Z -> A) (n k : Z) :
  (0 <= k < n)%Z -> map f (seqZ 0 n) !! Z.to_nat k = Some (f k).
Proof.
  intros Hk. change (map f (seqZ 0 n)) with (f <$> seqZ 0 n).
  rewrite list_lookup_fmap, lookup_seqZ_lt by lia.
  simpl. f_equal. f_equal. lia.
Qed.

(** The baseline of the blend is the table's value: no table entry is
    zero, so [||] never replaces one. *)
Lemma hour_baseline (h : Z) :
  (0 <= h < 24)%Z ->
  field_or DailyPattern.averageMood (find_hour h DEFAULT_DAILY_PATTERNS) 50
    = DailyPattern.averageMood (getDefaultPatternForHour h) /\
  field_or DailyPattern.averageEnergy (find_hour h DEFAULT_DAILY_PATTERNS) 50
    = DailyPattern.averageEnergy (getDefaultPatternForHour h).
Proof.
  revert h. apply each_hour. rewrite seqZ_24.
  repeat (constructor; [by vm_compute|]). constructor.
Qed.

Lemma day_baseline (d : Z) :
  (0 <= d < 7)%Z ->
  field_or WeeklyPattern.averageMood (find_day d DEFAULT_WEEKLY_PATTERNS) 60
    = WeeklyPattern.averageMood (getDefaultPatternForDay d) /\
  field_or WeeklyPattern.averageEnergy (find_day d DEFAULT_WEEKLY_PATTERNS) 60
    = WeeklyPattern.averageEnergy (getDefaultPatternForDay d).
Proof.
  revert d. apply each_day. rewrite seqZ_7.
  repeat (constructor; [by vm_compute|]). constructor.
Qed.

Lemma nonempty_length {A} (l : list A) : (1 <= length l)%nat -> exists x l', l = x :: l'.
Proof. destruct l as [|x l']; simpl; [lia | eauto]. Qed.

(** What the hour loop pushes for a bucket that holds samples. *)
Lemma daily_entry_blended (es : list MoodEnergyEntry) (h : Z) :
  let bucket := bucket_of getHours h es in
  let n := length bucket in
  (0 <= h < 24)%Z -> (1 <= n)%nat ->
  daily_entry (group_entries getHours es) h =
    {| DailyPattern.hour := h;
       DailyPattern.averageMood :=
         inject_Z (blend (raw_mean (map mood bucket)) (hourly_weight n)
                         (DailyPattern.averageMood (getDefaultPatternForHour h)));
       DailyPattern.averageEnergy :=
         inject_Z (blend (raw_mean (map energy bucket)) (hourly_weight n)
                         (DailyPattern.averageEnergy (getDefaultPatternForHour h)));
       DailyPattern.entryCount := Z.of_nat n |}.
Proof.
  intros bucket n Hh Hn. unfold daily_entry.
  rewrite group_entries_lookup. fold bucket.
  destruct (nonempty_length bucket Hn) as (e0 & b' & Hb).
  destruct (hour_baseline h Hh) as [Hm He]. rewrite Hm, He.
  subst n. rewrite Hb. rewrite <- Hb. cbn [moods energies].
  rewrite !length_map.
  rewrite (proj2 (Nat.ltb_lt 0 (length bucket))) by lia.
  unfold raw_mean, hourly_weight, len. by rewrite !length_map.
Qed.

(** What the day loop pushes for a bucket that holds samples. *)
Lemma weekly_entry_blended (es : list MoodEnergyEntry) (d : Z) :
  let bucket := bucket_of getDay d es in
  let n := length bucket in
  (0 <= d < 7)%Z -> (1 <= n)%nat ->
  weekly_entry (group_entries getDay es) d =
    {| WeeklyPattern.dayOfWeek := d;
       WeeklyPattern.averageMood :=
         inject_Z (blend (raw_mean (map mood bucket)) (weekly_weight n)
                         (WeeklyPattern.averageMood (getDefaultPatternForDay d)));
       WeeklyPattern.averageEnergy :=
         inject_Z (blend (raw_mean (map energy bucket)) (weekly_weight n)
                         (WeeklyPattern.averageEnergy (getDefaultPatternForDay d)));
       WeeklyPattern.entryCount := Z.of_nat n |}.
Proof.
  intros bucket n Hd Hn. unfold weekly_entry.
  rewrite group_entries_lookup. fold bucket.
  destruct (nonempty_length bucket Hn) as (e0 & b' & Hb).
  destruct (day_baseline d Hd) as [Hm He]. rewrite Hm, He.
  subst n. rewrite Hb. rewrite <- Hb. cbn [moods energies].
  rewrite !length_map.
  rewrite (proj2 (Nat.ltb_lt 0 (length bucket))) by lia.
  unfold raw_mean, weekly_weight, len. by rewrite !length_map.
Qed.

(** What either loop pushes for a bucket without samples. *)
Lemma daily_entry_default (es : list MoodEnergyEntry) (h : Z) :
  bucket_of getHours h es = [] ->
  daily_entry (group_entries getHours es) h = getDefaultPatternForHour h.
Proof.
  intros Hb. unfold daily_entry. by rewrite group_entries_lookup, Hb.
Qed.

Lemma weekly_entry_default (es : list MoodEnergyEntry) (d : Z) :
  bucket_of getDay d es = [] ->
  weekly_entry (group_entries getDay es) d = getDefaultPatternForDay d.
Proof.
  intros Hb. unfold weekly_entry. by rewrite group_entries_lookup, Hb.
Qed.

(** *** Means and weights *)

Lemma len_cons {A} (x : A) (l : list A) : len (x :: l) == len l + 1.
Proof.
  unfold len. cbn [length]. rewrite Nat2Z.inj_succ. unfold Z.succ.
  rewrite inject_Z_plus. reflexivity.
Qed.

Lemma len_nonneg {A} (l : list A) : (0 <= len l)%Q.
Proof.
  unfold len. change 0%Q with (inject_Z 0). rewrite <- Zle_Qle. lia.
Qed.

Lemma len_pos {A} (l : list A) : (1 <= length l)%nat -> (0 < len l)%Q.
Proof.
  intros Hl. unfold len. change 0%Q with (inject_Z 0). rewrite <- Zlt_Qlt. lia.
Qed.

Lemma weight_range (n : nat) (d cap : Q) :
  (0 < d)%Q -> (0 <= cap)%Q ->
  (0 <= Math_min (inject_Z (Z.of_nat n) / d) cap <= cap)%Q.
Proof.
  intros Hd Hcap. unfold Math_min. split.
  - apply Q.min_glb; [|done].
    apply Qle_shift_div_l; [done|]. rewrite Qmult_0_l.
    change 0%Q with (inject_Z 0). rewrite <- Zle_Qle. lia.
  - apply Q.le_min_r.
Qed.

(** A convex combination stays between its two ends. *)
Lemma convex_between (a b t : Q) :
  (0 <= t)%Q -> (t <= 1)%Q ->
  (Qmin a b <= a * t + b * (1 - t) <= Qmax a b)%Q.
Proof.
  intros H0 H1.
  assert (Hs : (0 <= 1 - t)%Q) by lra.
  destruct (Qlt_le_dec a b) as [Hab|Hba].
  - rewrite (Q.min_l a b), (Q.max_r a b) by lra.
    assert (0 <= (b - a) * (1 - t))%Q by (apply Qmult_le_0_compat; lra).
    assert (0 <= (b - a) * t)%Q by (apply Qmult_le_0_compat; lra).
    split; lra.
  - rewrite (Q.min_r a b), (Q.max_l a b) by lra.
    assert (0 <= (a - b) * (1 - t))%Q by (apply Qmult_le_0_compat; lra).
    assert (0 <= (a - b) * t)%Q by (apply Qmult_le_0_compat; lra).
    split; lra.
Qed.

Lemma Math_round_mono (x y : Q) : (x <= y)%Q -> (Math_round x <= Math_round y)%Z.
Proof. intros Hxy. unfold Math_round. apply Qfloor_resp_le. lra. Qed.

(** The rounded blend lies between the roundings of the two ends. *)
Lemma blend_between (raw base t : Q) :
  (0 <= t)%Q -> (t <= 1)%Q ->
  (Math_round (Qmin raw base) <= blend raw t base <= Math_round (Qmax raw base))%Z.
Proof.
  intros H0 H1. unfold blend.
  destruct (convex_between raw base t H0 H1) as [Hlo Hhi].
  split; by apply Math_round_mono.
Qed.

Lemma table_hour (h : Z) :
  (0 <= h < 24)%Z ->
  find_hour h DEFAULT_DAILY_PATTERNS = Some (getDefaultPatternForHour h) /\
  DailyPattern.entryCount (getDefaultPatternForHour h) = 0%Z.
Proof.
  revert h. apply each_hour. rewrite seqZ_24.
  repeat (constructor; [by vm_compute|]). constructor.
Qed.

Lemma table_day (d : Z) :
  (0 <= d < 7)%Z ->
  find_day d DEFAULT_WEEKLY_PATTERNS = Some (getDefaultPatternForDay d) /\
  WeeklyPattern.entryCount (getDefaultPatternForDay d) = 0%Z.
Proof.
  revert d. apply each_day. rewrite seqZ_7.
  repeat (constructor; [by vm_compute|]). constructor.
Qed.

(** *** Properties of the analyses *)

(** C1. Whatever is stored, [analyzeDailyPatterns] resolves with 24
    entries whose hours are 0, 1, ..., 23 in this order, so each hour occurs
    exactly once and the hours ascend; [analyzeWeeklyPatterns] resolves with
    7 entries whose days are 0, 1, ..., 6 in this order. *)
Theorem C1_analysis_is_complete (w : World) :
  (exists ps w',
      analyzeDailyPatterns w = (Resolved ps, w') /\
      length ps = 24%nat /\
      map DailyPattern.hour ps = seqZ 0 24 /\
      StronglySorted Z.lt (map DailyPattern.hour ps) /\
      (forall h, (0 <= h < 24)%Z ->
                 count_occ Z.eq_dec (map DailyPattern.hour ps) h = 1%nat)) /\
  (exists ps w',
      analyzeWeeklyPatterns w = (Resolved ps, w') /\
      length ps = 7%nat /\
      map WeeklyPattern.dayOfWeek ps = seqZ 0 7 /\
      StronglySorted Z.lt (map WeeklyPattern.dayOfWeek ps) /\
      (forall d, (0 <= d < 7)%Z ->
                 count_occ Z.eq_dec (map WeeklyPattern.dayOfWeek ps) d = 1%nat)).
Proof.
  split.
  - rewrite analyzeDailyPatterns_run. cbv zeta. eexists _, _. split; [done|].
    rewrite (map_key_id _ DailyPattern.hour) by apply daily_entry_hour.
    rewrite length_map, length_seqZ. split; [done|]. split; [done|].
    rewrite seqZ_24. split.
    + repeat first [apply SSorted_nil | apply SSorted_cons | apply List.Forall_nil
                   | apply List.Forall_cons; [lia|]].
    + rewrite <- seqZ_24. apply each_hour. rewrite seqZ_24.
      repeat (constructor; [by vm_compute|]). constructor.
  - rewrite analyzeWeeklyPatterns_run. cbv zeta. eexists _, _. split; [done|].
    rewrite (map_key_id _ WeeklyPattern.dayOfWeek) by apply weekly_entry_day.
    rewrite length_map, length_seqZ. split; [done|]. split; [done|].
    rewrite seqZ_7. split.
    + repeat first [apply SSorted_nil | apply SSorted_cons | apply List.Forall_nil
                   | apply List.Forall_cons; [lia|]].
    + rewrite <- seqZ_7. apply each_day. rewrite seqZ_7.
      repeat (constructor; [by vm_compute|]). constructor.
Qed.

(** C8. When no sample is stored, both analyses resolve, and the entry
    for every hour (every day) is the baseline table's entry for that hour
    (day), whose [entryCount] is 0. *)
Theorem C8_empty_history_gives_baseline (w : World) :
  stored_entries w = [] ->
  exists ds ws w1 w2,
    analyzeDailyPatterns w = (Resolved ds, w1) /\
    analyzeWeeklyPatterns w = (Resolved ws, w2) /\
    (forall h, (0 <= h < 24)%Z ->
       exists p, ds !! Z.to_nat h = Some p /\
                 find_hour h DEFAULT_DAILY_PATTERNS = Some p /\
                 DailyPattern.entryCount p = 0%Z) /\
    (forall d, (0 <= d < 7)%Z ->
       exists p, ws !! Z.to_nat d = Some p /\
                 find_day d DEFAULT_WEEKLY_PATTERNS = Some p /\
                 WeeklyPattern.entryCount p = 0%Z).
Proof.
  intros Hes.
  rewrite analyzeDailyPatterns_run, analyzeWeeklyPatterns_run, Hes. cbv zeta.
  eexists _, _, _, _. split; [done|]. split; [done|]. split.
  - intros h Hh. exists (getDefaultPatternForHour h).
    rewrite lookup_map_seqZ by done.
    rewrite daily_entry_default by done.
    destruct (table_hour h Hh) as [Hf Hc]. done.
  - intros d Hd. exists (getDefaultPatternForDay d).
    rewrite lookup_map_seqZ by done.
    rewrite weekly_entry_default by done.
    destruct (table_day d Hd) as [Hf Hc]. done.
Qed.

(** C6 (as the code has it). Each analysis writes its own result to the
    store and nothing else: [analyzeDailyPatterns] replaces the stored daily
    patterns by the list it resolves with and leaves the stored entries, the
    stored weekly patterns, the last entry, the clock and the random
    sequence as they were; [analyzeWeeklyPatterns] does the same with the
    stored weekly patterns. *)
Theorem C6_analysis_stores_its_result (w : World) :
  (exists ps w',
      analyzeDailyPatterns w = (Resolved ps, w') /\
      DAILY_PATTERNS (storage w') = Some ps /\
      ENTRIES (storage w') = ENTRIES (storage w) /\
      WEEKLY_PATTERNS (storage w') = WEEKLY_PATTERNS (storage w) /\
      LAST_ENTRY (storage w') = LAST_ENTRY (storage w) /\
      clock w' = clock w /\ draws w' = draws w) /\
  (exists ps w',
      analyzeWeeklyPatterns w = (Resolved ps, w') /\
      WEEKLY_PATTERNS (storage w') = Some ps /\
      ENTRIES (storage w') = ENTRIES (storage w) /\
      DAILY_PATTERNS (storage w') = DAILY_PATTERNS (storage w) /\
      LAST_ENTRY (storage w') = LAST_ENTRY (storage w) /\
      clock w' = clock w /\ draws w' = draws w).
Proof.
  split.
  - rewrite analyzeDailyPatterns_run. cbv zeta. eexists _, _. by repeat split.
  - rewrite analyzeWeeklyPatterns_run. cbv zeta. eexists _, _. by repeat split.
Qed.

(** *** The analyses in double precision *)

Lemma binary64_dailyPatterns_lookup (es : list MoodEnergyEntry) (h : Z) :
  (0 <= h < 24)%Z ->
  Binary64.dailyPatterns getHours es !! Z.to_nat h
    = Some (Binary64.daily_entry (group_entries getHours es) h).
Proof.
  intros Hh. unfold Binary64.dailyPatterns. cbv beta iota zeta.
  rewrite fold_push. exact (lookup_map_seqZ _ 24 h Hh).
Qed.

Lemma binary64_weeklyPatterns_lookup (es : list MoodEnergyEntry) (d : Z) :
  (0 <= d < 7)%Z ->
  Binary64.weeklyPatterns getDay es !! Z.to_nat d
    = Some (Binary64.weekly_entry (group_entries getDay es) d).
Proof.
  intros Hd. unfold Binary64.weeklyPatterns. cbv beta iota zeta.
  rewrite fold_push. exact (lookup_map_seqZ _ 7 d Hd).
Qed.

(** In double precision too the baseline of the blend is the table's
    value. *)
Lemma binary64_hour_baseline (h : Z) :
  (0 <= h < 24)%Z ->
  Binary64.field_or (fun p => Binary64.of_Q (DailyPattern.averageMood p))
      (find_hour h DEFAULT_DAILY_PATTERNS) (Binary64.of_Z 50)
    = Binary64.of_Q (DailyPattern.averageMood (getDefaultPatternForHour h)) /\
  Binary64.field_or (fun p => Binary64.of_Q (DailyPattern.averageEnergy p))
      (find_hour h DEFAULT_DAILY_PATTERNS) (Binary64.of_Z 50)
    = Binary64.of_Q (DailyPattern.averageEnergy (getDefaultPatternForHour h)).
Proof.
  revert h. apply each_hour. rewrite seqZ_24.
  repeat (constructor; [by vm_compute|]). constructor.
Qed.

Lemma binary64_day_baseline (d : Z) :
  (0 <= d < 7)%Z ->
  Binary64.field_or (fun p => Binary64.of_Q (WeeklyPattern.averageMood p))
      (find_day d DEFAULT_WEEKLY_PATTERNS) (Binary64.of_Z 60)
    = Binary64.of_Q (WeeklyPattern.averageMood (getDefaultPatternForDay d)) /\
  Binary64.field_or (fun p => Binary64.of_Q (WeeklyPattern.averageEnergy p))
      (find_day d DEFAULT_WEEKLY_PATTERNS) (Binary64.of_Z 60)
    = Binary64.of_Q (WeeklyPattern.averageEnergy (getDefaultPatternForDay d)).
Proof.
  revert d. apply each_day. rewrite seqZ_7.
  repeat (constructor; [by vm_compute|]). constructor.
Qed.

(** In both readings an analysis has the same keys and the same entry
    counts. *)
Lemma binary64_same_keys_and_counts (entries : list MoodEnergyEntry) :
  map Binary64.Daily.hour (Binary64.dailyPatterns getHours entries)
    = map DailyPattern.hour (map (daily_entry (group_entries getHours entries)) (seqZ 0 24)) /\
  map Binary64.Daily.entryCount (Binary64.dailyPatterns getHours entries)
    = map DailyPattern.entryCount
        (map (daily_entry (group_entries getHours entries)) (seqZ 0 24)) /\
  map Binary64.Weekly.dayOfWeek (Binary64.weeklyPatterns getDay entries)
    = map WeeklyPattern.dayOfWeek
        (map (weekly_entry (group_entries getDay entries)) (seqZ 0 7)) /\
  map Binary64.Weekly.entryCount (Binary64.weeklyPatterns getDay entries)
    = map WeeklyPattern.entryCount
        (map (weekly_entry (group_entries getDay entries)) (seqZ 0 7)).
Proof.
  unfold Binary64.dailyPatterns, Binary64.weeklyPatterns. cbv beta iota zeta.
  rewrite !fold_push. change (@nil Binary64.Daily.t ++ ?l) with l.
  change (@nil Binary64.Weekly.t ++ ?l) with l.
  rewrite !map_map.
  repeat split; apply map_ext; intros k;
    unfold Binary64.daily_entry, Binary64.weekly_entry, daily_entry, weekly_entry;
    cbv zeta; destruct (_ !! k) as [b|]; try reflexivity;
    destruct (0 <? length (moods b))%nat; reflexivity.
Qed.

(** A list all of whose elements read as the same double. *)
Lemma map_constant {A B} (f : A -> B) (c : B) (l : list A) :
  Forall (fun x => f x = c) l -> map f l = repeat c (length l).
Proof. induction 1 as [|x l Hx _ IH]; simpl; [done|]. by rewrite Hx, IH. Qed.

(** C3. The blend is computed in double precision.  For an hour whose
    bucket holds [n >= 1] samples, the list [analyzeDailyPatterns] builds has,
    at that hour, mood and energy
    [round(rawMean * dataWeight + baseline * (1 - dataWeight))] where
    [dataWeight = min(n / 10, 0.8)], [rawMean] is the sum of the bucket's
    values in stored order divided by [n], every operation is the binary64
    one, and [entryCount = n].  In particular, twenty stored samples, all at
    hour 9 with mood 80 and energy 80, give 76 for both against the baseline
    60 / 60 of hour 9. *)
Theorem C3_hourly_blend (w : World) :
  (forall h : Z,
     let bucket := bucket_of getHours h (stored_entries w) in
     let n := length bucket in
     let dataWeight :=
       Binary64.Math_min (Binary64.of_nat n / Binary64.of_Z 10)%float Binary64.lit_0_8 in
     let rawMean (field : MoodEnergyEntry -> Q) :=
       (Binary64.sum (map Binary64.of_Q (map field bucket)) / Binary64.of_nat n)%float in
     let baseline := getDefaultPatternForHour h in
     (0 <= h < 24)%Z -> (1 <= n)%nat ->
     Binary64.dailyPatterns getHours (stored_entries w) !! Z.to_nat h = Some
       {| Binary64.Daily.hour := h;
          Binary64.Daily.averageMood :=
            Binary64.Math_round
              (rawMean mood * dataWeight
               + Binary64.of_Q (DailyPattern.averageMood baseline)
                 * (Binary64.of_Z 1 - dataWeight))%float;
          Binary64.Daily.averageEnergy :=
            Binary64.Math_round
              (rawMean energy * dataWeight
               + Binary64.of_Q (DailyPattern.averageEnergy baseline)
                 * (Binary64.of_Z 1 - dataWeight))%float;
          Binary64.Daily.entryCount := Z.of_nat n |}) /\
  (length (stored_entries w) = 20%nat ->
   Forall (fun e => getHours (timestamp e) = 9%Z /\
                    Binary64.of_Q (mood e) = Binary64.of_Z 80 /\
                    Binary64.of_Q (energy e) = Binary64.of_Z 80)
          (stored_entries w) ->
   DailyPattern.averageMood (getDefaultPatternForHour 9) = 60%Q /\
   DailyPattern.averageEnergy (getDefaultPatternForHour 9) = 60%Q /\
   Binary64.dailyPatterns getHours (stored_entries w) !! 9%nat = Some
     {| Binary64.Daily.hour := 9;
        Binary64.Daily.averageMood := Binary64.of_Z 76;
        Binary64.Daily.averageEnergy := Binary64.of_Z 76;
        Binary64.Daily.entryCount := 20 |}).
Proof.
  assert (Hentry : forall h : Z,
    let bucket := bucket_of getHours h (stored_entries w) in
    let n := length bucket in
    let dataWeight :=
      Binary64.Math_min (Binary64.of_nat n / Binary64.of_Z 10)%float Binary64.lit_0_8 in
    let rawMean (field : MoodEnergyEntry -> Q) :=
      (Binary64.sum (map Binary64.of_Q (map field bucket)) / Binary64.of_nat n)%float in
    let baseline := getDefaultPatternForHour h in
    (0 <= h < 24)%Z -> (1 <= n)%nat ->
    Binary64.dailyPatterns getHours (stored_entries w) !! Z.to_nat h = Some
      {| Binary64.Daily.hour := h;
         Binary64.Daily.averageMood :=
           Binary64.Math_round
             (rawMean mood * dataWeight
              + Binary64.of_Q (DailyPattern.averageMood baseline)
                * (Binary64.of_Z 1 - dataWeight))%float;
         Binary64.Daily.averageEnergy :=
           Binary64.Math_round
             (rawMean energy * dataWeight
              + Binary64.of_Q (DailyPattern.averageEnergy baseline)
                * (Binary64.of_Z 1 - dataWeight))%float;
         Binary64.Daily.entryCount := Z.of_nat n |}).
  { intros h bucket n dataWeight rawMean baseline Hh Hn.
    rewrite binary64_dailyPatterns_lookup by done. f_equal.
    unfold Binary64.daily_entry. rewrite group_entries_lookup. fold bucket.
    destruct (nonempty_length bucket Hn) as (e0 & b' & Hb).
    destruct (binary64_hour_baseline h Hh) as [Hm He].
    let c := eval vm_compute in (Binary64.of_Z 50) in
    change (Binary64.of_Z 50) with c in Hm, He.
    cbv zeta. rewrite Hm, He.
    subst n. rewrite Hb. rewrite <- Hb. cbn [moods energies].
    rewrite !length_map.
    rewrite (proj2 (Nat.ltb_lt 0 (length bucket))) by lia.
    reflexivity. }
  split; [exact Hentry|].
  intros Hlen Hall. split; [done|]. split; [done|].
  assert (Hb : bucket_of getHours 9 (stored_entries w) = stored_entries w).
  { apply bucket_of_all. eapply Forall_impl; [exact Hall|]. by intros e (? & _). }
  assert (Hm : map Binary64.of_Q (map mood (stored_entries w))
               = repeat (Binary64.of_Z 80) 20).
  { rewrite map_map, <- Hlen. apply map_constant.
    eapply Forall_impl; [exact Hall|]. by intros e (_ & ? & _). }
  assert (He : map Binary64.of_Q (map energy (stored_entries w))
               = repeat (Binary64.of_Z 80) 20).
  { rewrite map_map, <- Hlen. apply map_constant.
    eapply Forall_impl; [exact Hall|]. by intros e (_ & _ & ?). }
  assert (Hh : (0 <= 9 < 24)%Z) by lia.
  assert (Hn : (1 <= length (bucket_of getHours 9 (stored_entries w)))%nat)
    by (rewrite Hb; lia).
  pose proof (Hentry 9%Z Hh Hn) as H9. cbv zeta in H9.
  rewrite Hb, Hlen, Hm, He in H9.
  change (Z.to_nat 9) with 9%nat in H9. rewrite H9. by vm_compute.
Qed.

(** C5 (as the code has it). For a bucket with [n >= 1] samples the
    blended mood lies between [round(min(rawMean, baseline))] and
    [round(max(rawMean, baseline))], inclusive, where [round] is
    [Math.round]; likewise the blended energy; for the hourly and for the
    weekly analysis. *)
Theorem C5_blend_within_rounded_ends (w : World) :
  (forall h : Z,
     let bucket := bucket_of getHours h (stored_entries w) in
     let baseline := getDefaultPatternForHour h in
     (0 <= h < 24)%Z -> (1 <= length bucket)%nat ->
     exists ps w' p,
       analyzeDailyPatterns w = (Resolved ps, w') /\
       ps !! Z.to_nat h = Some p /\
       (inject_Z (Math_round (Qmin (raw_mean (map mood bucket))
                                   (DailyPattern.averageMood baseline)))
          <= DailyPattern.averageMood p
          <= inject_Z (Math_round (Qmax (raw_mean (map mood bucket))
                                        (DailyPattern.averageMood baseline))))%Q /\
       (inject_Z (Math_round (Qmin (raw_mean (map energy bucket))
                                   (DailyPattern.averageEnergy baseline)))
          <= DailyPattern.averageEnergy p
          <= inject_Z (Math_round (Qmax (raw_mean (map energy bucket))
                                        (DailyPattern.averageEnergy baseline))))%Q) /\
  (forall d : Z,
     let bucket := bucket_of getDay d (stored_entries w) in
     let baseline := getDefaultPatternForDay d in
     (0 <= d < 7)%Z -> (1 <= length bucket)%nat ->
     exists ps w' p,
       analyzeWeeklyPatterns w = (Resolved ps, w') /\
       ps !! Z.to_nat d = Some p /\
       (inject_Z (Math_round (Qmin (raw_mean (map mood bucket))
                                   (WeeklyPattern.averageMood baseline)))
          <= WeeklyPattern.averageMood p
          <= inject_Z (Math_round (Qmax (raw_mean (map mood bucket))
                                        (WeeklyPattern.averageMood baseline))))%Q /\
       (inject_Z (Math_round (Qmin (raw_mean (map energy bucket))
                                   (WeeklyPattern.averageEnergy baseline)))
          <= WeeklyPattern.averageEnergy p
          <= inject_Z (Math_round (Qmax (raw_mean (map energy bucket))
                                        (WeeklyPattern.averageEnergy baseline))))%Q).
Proof.
  split.
  - intros h bucket baseline Hh Hn.
    rewrite analyzeDailyPatterns_run. cbv zeta. eexists _, _, _. split; [done|].
    rewrite lookup_map_seqZ by done. split; [done|].
    rewrite daily_entry_blended by done. fold bucket. cbn [DailyPattern.averageMood
      DailyPattern.averageEnergy].
    destruct (weight_range (length bucket) 10 0.8) as [H0 H1]; [lra | lra |].
    fold (hourly_weight (length bucket)) in H0, H1.
    rewrite <- !Zle_Qle.
    split; apply blend_between; lra.
  - intros d bucket baseline Hd Hn.
    rewrite analyzeWeeklyPatterns_run. cbv zeta. eexists _, _, _. split; [done|].
    rewrite lookup_map_seqZ by done. split; [done|].
    rewrite weekly_entry_blended by done. fold bucket. cbn [WeeklyPattern.averageMood
      WeeklyPattern.averageEnergy].
    destruct (weight_range (length bucket) 15 0.7) as [H0 H1]; [lra | lra |].
    fold (weekly_weight (length bucket)) in H0, H1.
    rewrite <- !Zle_Qle.
    split; apply blend_between; lra.
Qed.

(** *** The forecast loop *)

Lemma step_confidence_range (hourCount dayCount : Z) (lastEntries : list MoodEnergyEntry) :
  (0.6 <= step_confidence hourCount dayCount lastEntries <= 1)%Q.
Proof.
  unfold step_confidence, Math_min, Math_max.
  set (hc := Qmin (inject_Z hourCount / 10) 1).
  set (dc := Qmin (inject_Z dayCount / 15) 1).
  assert (Hhc : (hc <= 1)%Q) by apply Q.le_min_r.
  assert (Hdc : (dc <= 1)%Q) by apply Q.le_min_r.
  assert (Hbase : (0.6 <= Qmax 0.6 ((hc + dc) / 2) <= 1)%Q).
  { split; [apply Q.le_max_l|]. apply Q.max_lub; [lra|].
    apply Qle_shift_div_r; lra. }
  assert (Hbump : forall c : Q, (0.6 <= c <= 1)%Q -> (0.6 <= Qmin 1 (c + 0.1) <= 1)%Q).
  { intros c Hc. split; [apply Q.min_glb; lra | apply Q.le_min_l]. }
  destruct ((0 <? hourCount)%Z || (0 <? dayCount)%Z)%bool;
    destruct (3 <=? length lastEntries)%nat;
    first [by apply Hbump | done | lra].
Qed.

Lemma rounded_confidence_range (c : Q) :
  (0.6 <= c <= 1)%Q ->
  (0.6 <= inject_Z (Math_round (c * 100)) / 100 <= 1)%Q.
Proof.
  intros Hc.
  destruct (Math_round_between 60 100 (c * 100)) as [Hlo Hhi].
  { change (inject_Z 60) with 60%Q. lra. }
  { change (inject_Z 100) with 100%Q. lra. }
  rewrite Zle_Qle in Hlo, Hhi.
  change (inject_Z 60) with 60%Q in Hlo. change (inject_Z 100) with 100%Q in Hhi.
  split.
  - apply Qle_shift_div_l; lra.
  - apply Qle_shift_div_r; lra.
Qed.

(** One round of the loop resolves, consumes two random values, touches
    neither the store nor the clock, and emits a clamped point. *)
Lemma predict_step_run (dailyPatterns : list DailyPattern.t)
    (weeklyPatterns : list WeeklyPattern.t) (lastEntries : list MoodEnergyEntry)
    (now i : Z) (w : World) :
  exists p hourCount dayCount,
    predict_step dailyPatterns weeklyPatterns lastEntries now i w =
      (Resolved p,
       {| storage := storage w; clock := clock w; draws := S (S (draws w)) |}) /\
    p_timestamp p = (now + i * 60 * 60 * 1000)%Z /\
    (10 <= predictedMood p <= 90)%Z /\
    (10 <= predictedEnergy p <= 90)%Z /\
    confidence p =
      (inject_Z (Math_round (step_confidence hourCount dayCount lastEntries * 100)) / 100)%Q.
Proof.
  unfold predict_step, getTimeBasedVariation, bind, Math_random, ret.
  cbn [storage clock draws fst snd].
  assert (Hclamp : forall y : Q, (10 <= Math_round (Math_max 10 (Math_min 90 y)) <= 90)%Z).
  { intros y. destruct (clamp_between 10 90 y) as [Hlo Hhi]; [lra|].
    by apply Math_round_between. }
  destruct (3 <=? length lastEntries)%nat;
    (eexists _, _, _; split; [reflexivity|]; cbn [p_timestamp predictedMood
       predictedEnergy confidence]; split; [done|]; split; [apply Hclamp|];
     split; [apply Hclamp | reflexivity]).
Qed.

(** The point a round emits depends on the world only through the position
    in the random sequence. *)
Lemma predict_step_world (dailyPatterns : list DailyPattern.t)
    (weeklyPatterns : list WeeklyPattern.t) (lastEntries : list MoodEnergyEntry)
    (now i : Z) (w1 w2 : World) :
  draws w1 = draws w2 ->
  fst (predict_step dailyPatterns weeklyPatterns lastEntries now i w1) =
  fst (predict_step dailyPatterns weeklyPatterns lastEntries now i w2).
Proof.
  intros Hd.
  unfold predict_step, getTimeBasedVariation, bind, Math_random, ret.
  cbn [storage clock draws fst snd].
  destruct (3 <=? length lastEntries)%nat; cbn [fst]; by rewrite Hd.
Qed.

Lemma predict_loop_run (P : PredictionData -> Prop)
    (dailyPatterns : list DailyPattern.t) (weeklyPatterns : list WeeklyPattern.t)
    (lastEntries : list MoodEnergyEntry) (now : Z) :
  (forall i w p w',
      predict_step dailyPatterns weeklyPatterns lastEntries now i w = (Resolved p, w') ->
      P p) ->
  forall (rounds : nat) (i : Z) (acc : list PredictionData) (w : World),
  exists ps,
    predict_loop dailyPatterns weeklyPatterns lastEntries now rounds i acc w =
      (Resolved (acc ++ ps),
       {| storage := storage w; clock := clock w;
          draws := (draws w + 2 * rounds)%nat |}) /\
    length ps = rounds /\ Forall P ps.
Proof.
  intros HP rounds. induction rounds as [|rounds IH]; intros i acc w.
  - exists []. cbn [predict_loop]. unfold ret. rewrite app_nil_r, Nat.add_0_r.
    destruct w; done.
  - cbn [predict_loop]. unfold bind.
    destruct (predict_step_run dailyPatterns weeklyPatterns lastEntries now i w)
      as (p & hc & dc & Hrun & _).
    rewrite Hrun.
    destruct (IH (i + 1)%Z (acc ++ [p])
                 {| storage := storage w; clock := clock w; draws := S (S (draws w)) |})
      as (ps & Hloop & Hlen & Hall).
    exists (p :: ps). rewrite Hloop. cbn [storage clock draws length].
    rewrite <- app_assoc. cbn [app].
    replace (S (S (draws w)) + 2 * rounds)%nat with (draws w + 2 * S rounds)%nat by lia.
    split; [done|]. split; [by rewrite Hlen|].
    constructor; [by eapply HP | done].
Qed.

Lemma predict_loop_world (dailyPatterns : list DailyPattern.t)
    (weeklyPatterns : list WeeklyPattern.t) (lastEntries : list MoodEnergyEntry)
    (now : Z) (rounds : nat) :
  forall (i : Z) (acc : list PredictionData) (w1 w2 : World),
  draws w1 = draws w2 ->
  fst (predict_loop dailyPatterns weeklyPatterns lastEntries now rounds i acc w1) =
  fst (predict_loop dailyPatterns weeklyPatterns lastEntries now rounds i acc w2).
Proof.
  induction rounds as [|rounds IH]; intros i acc w1 w2 Hd.
  - done.
  - cbn [predict_loop]. unfold bind.
    pose proof (predict_step_world dailyPatterns weeklyPatterns lastEntries now i
                  w1 w2 Hd) as Hfst.
    destruct (predict_step_run dailyPatterns weeklyPatterns lastEntries now i w1)
      as (p1 & ? & ? & Hrun1 & _).
    destruct (predict_step_run dailyPatterns weeklyPatterns lastEntries now i w2)
      as (p2 & ? & ? & Hrun2 & _).
    rewrite Hrun1, Hrun2 in *. cbn [fst] in Hfst. injection Hfst as ->.
    apply IH. cbn [draws]. by rewrite Hd.
Qed.

Lemma generatePredictions_unfold (hoursAhead : Z) (w : World) :
  generatePredictions hoursAhead w =
    predict_loop (default [] (DAILY_PATTERNS (storage w)))
                 (default [] (WEEKLY_PATTERNS (storage w)))
                 (slice_last 10 (stored_entries w)) (clock w)
                 (Z.to_nat hoursAhead) 1 [] w.
Proof. reflexivity. Qed.

(** Every point of a forecast is clamped and carries the rounding of a step
    confidence; a property that follows from this holds of all its points. *)
Lemma generatePredictions_points (P : PredictionData -> Prop) (hoursAhead : Z) (w : World) :
  (forall (p : PredictionData) (hourCount dayCount : Z),
      (10 <= predictedMood p <= 90)%Z ->
      (10 <= predictedEnergy p <= 90)%Z ->
      confidence p =
        (inject_Z (Math_round (step_confidence hourCount dayCount
                                 (slice_last 10 (stored_entries w)) * 100)) / 100)%Q ->
      P p) ->
  exists ps w',
    generatePredictions hoursAhead w = (Resolved ps, w') /\
    length ps = Z.to_nat hoursAhead /\
    Forall P ps.
Proof.
  intros HP. rewrite generatePredictions_unfold.
  destruct (predict_loop_run P
              (default [] (DAILY_PATTERNS (storage w)))
              (default [] (WEEKLY_PATTERNS (storage w)))
              (slice_last 10 (stored_entries w)) (clock w)) with
    (rounds := Z.to_nat hoursAhead) (i := 1%Z) (acc := @nil PredictionData) (w := w)
    as (ps & Hrun & Hlen & Hall).
  - intros i w0 p w' Hstep.
    destruct (predict_step_run (default [] (DAILY_PATTERNS (storage w)))
                (default [] (WEEKLY_PATTERNS (storage w)))
                (slice_last 10 (stored_entries w)) (clock w) i w0)
      as (p' & hc & dc & Hrun & _ & Hm & He & Hc).
    rewrite Hrun in Hstep. injection Hstep as <- _. by eapply HP.
  - eexists _, _. by rewrite Hrun.
Qed.

Lemma generatePredictions_resolves (hoursAhead : Z) (w : World) :
  exists ps w', generatePredictions hoursAhead w = (Resolved ps, w').
Proof.
  destruct (generatePredictions_points (fun _ => True) hoursAhead w)
    as (ps & w' & Hrun & _); eauto.
Qed.

(** *** Properties of the forecast *)

(** C7. Whatever the stored patterns and samples, the random values, the
    clock and the horizon, [generatePredictions] resolves with one point per
    requested hour, and every point has [predictedMood] and
    [predictedEnergy] between 10 and 90 and a [confidence] between 0 and 1
    that is a whole number of hundredths. *)
Theorem C7_forecast_bounds (hoursAhead : Z) (w : World) :
  exists ps w',
    generatePredictions hoursAhead w = (Resolved ps, w') /\
    length ps = Z.to_nat hoursAhead /\
    Forall (fun p =>
              (10 <= predictedMood p <= 90)%Z /\
              (10 <= predictedEnergy p <= 90)%Z /\
              (0 <= confidence p <= 1)%Q /\
              exists k : Z, confidence p = (inject_Z k / 100)%Q) ps.
Proof.
  apply generatePredictions_points. intros p hc dc Hm He Hc.
  split; [done|]. split; [done|]. rewrite Hc. split; [|by eauto].
  pose proof (rounded_confidence_range _
                (step_confidence_range hc dc (slice_last 10 (stored_entries w)))).
  lra.
Qed.

(** C9. The confidence of a step before rounding lies in [0.6, 1]
    whatever the entry counts and the recent samples are, and every point
    [generatePredictions] resolves with reports the rounding to hundredths
    of such a value, which again lies in [0.6, 1]. *)
Theorem C9_confidence_at_least_base :
  (forall (hourCount dayCount : Z) (lastEntries : list MoodEnergyEntry),
      (0.6 <= step_confidence hourCount dayCount lastEntries <= 1)%Q) /\
  (forall (hoursAhead : Z) (w : World),
      exists ps w',
        generatePredictions hoursAhead w = (Resolved ps, w') /\
        length ps = Z.to_nat hoursAhead /\
        Forall (fun p =>
                  (exists hourCount dayCount : Z,
                      confidence p =
                        (inject_Z (Math_round
                           (step_confidence hourCount dayCount
                              (slice_last 10 (stored_entries w)) * 100)) / 100)%Q) /\
                  (0.6 <= confidence p <= 1)%Q) ps).
Proof.
  split; [apply step_confidence_range|].
  intros hoursAhead w. apply generatePredictions_points. intros p hc dc _ _ Hc.
  split; [by eauto|]. rewrite Hc.
  apply rounded_confidence_range, step_confidence_range.
Qed.

(** C2 (as the code has it). With a horizon of zero or less the loop
    body never runs: [generatePredictions] resolves with the empty list and
    leaves the world as it was; nothing is rejected. *)
Theorem C2_nonpositive_horizon_resolves_empty (hoursAhead : Z) (w : World) :
  (hoursAhead <= 0)%Z ->
  generatePredictions hoursAhead w = (Resolved [], w).
Proof.
  intros Hh. rewrite generatePredictions_unfold.
  replace (Z.to_nat hoursAhead) with 0%nat by lia. done.
Qed.

(** C10. Two worlds that agree on the stored patterns, the clock, the
    position in the random sequence and the last ten stored samples get the
    same outcome from [generatePredictions], for the same horizon. *)
Theorem C10_only_last_ten_samples_matter (hoursAhead : Z) (w1 w2 : World) :
  DAILY_PATTERNS (storage w1) = DAILY_PATTERNS (storage w2) ->
  WEEKLY_PATTERNS (storage w1) = WEEKLY_PATTERNS (storage w2) ->
  clock w1 = clock w2 ->
  draws w1 = draws w2 ->
  slice_last 10 (stored_entries w1) = slice_last 10 (stored_entries w2) ->
  fst (generatePredictions hoursAhead w1) = fst (generatePredictions hoursAhead w2).
Proof.
  intros Hd Hw Hc Hr Hs. rewrite !generatePredictions_unfold.
  rewrite Hd, Hw, Hc, Hs. by apply predict_loop_world.
Qed.

(** *** Properties of the dip query *)

Lemma filter_sublist {A} (f : A -> bool) (l : list A) : sublist (List.filter f l) l.
Proof.
  induction l as [|x l IH]; simpl.
  - constructor.
  - destruct (f x); by constructor.
Qed.

(** C4 (as the code has it). The dips of a list of prediction points are
    exactly the points whose [predictedEnergy] is strictly below their
    threshold (30 when [confidence > 0.7], otherwise 35), in the order of
    the input; [findEnergyDips] resolves with the time and energy of the
    dips of a 12-hour forecast.  A point with energy 25 and confidence 0.9
    is a dip, so is one with energy 32 and confidence 0.5, and one with
    energy 40 and confidence 0.9 is not. *)
Theorem C4_dips_are_strictly_below_threshold :
  (forall predictions : list PredictionData,
      energy_dips predictions =
        List.filter (fun p => (predictedEnergy p <? dip_threshold p)%Z) predictions /\
      sublist (energy_dips predictions) predictions /\
      (forall p, In p (energy_dips predictions) <->
                 In p predictions /\ (predictedEnergy p < dip_threshold p)%Z)) /\
  (forall (p : PredictionData),
      dip_threshold p = if gt_number (confidence p) 0.7 then 30%Z else 35%Z) /\
  (forall w : World,
      exists predictions w',
        generatePredictions 12 w = (Resolved predictions, w') /\
        findEnergyDips w =
          (Resolved (map (fun dip => {| time := toLocaleTimeString (p_timestamp dip);
                                        dip_energy := predictedEnergy dip |})
                         (energy_dips predictions)), w')) /\
  (forall t m : Z,
      let low := {| p_timestamp := t; predictedMood := m;
                    predictedEnergy := 25; confidence := 0.9 |} in
      let unsure := {| p_timestamp := t; predictedMood := m;
                       predictedEnergy := 32; confidence := 0.5 |} in
      let fine := {| p_timestamp := t; predictedMood := m;
                     predictedEnergy := 40; confidence := 0.9 |} in
      dip_threshold low = 30%Z /\ dip_threshold unsure = 35%Z /\
      dip_threshold fine = 30%Z /\
      energy_dips [low; unsure; fine] = [low; unsure]).
Proof.
  split; [|split; [|split]].
  - intros predictions. split; [done|]. split; [apply filter_sublist|].
    intros p. unfold energy_dips. rewrite filter_In. unfold is_dip.
    fold (dip_threshold p). by rewrite Z.ltb_lt.
  - done.
  - intros w. destruct (generatePredictions_resolves 12 w) as (ps & w' & Hrun).
    exists ps, w'. split; [done|]. unfold findEnergyDips, bind. by rewrite Hrun.
  - intros t m. cbv zeta. by repeat split.
Qed.

(** *** More on the forecast *)

Lemma seqZ_to_nat (m n : Z) : seqZ m (Z.of_nat (Z.to_nat n)) = seqZ m n.
Proof. unfold seqZ. by rewrite Nat2Z.id. Qed.

Lemma seqZ_succ (m : Z) (n : nat) :
  seqZ m (Z.of_nat (S n)) = m :: seqZ (m + 1) (Z.of_nat n).
Proof.
  rewrite seqZ_cons by lia. rewrite Nat2Z.inj_succ, Z.pred_succ. done.
Qed.

Lemma increasing_map_sorted (f : Z -> Z) (n : nat) :
  (forall x y, (x < y)%Z -> (f x < f y)%Z) ->
  forall m, StronglySorted Z.lt (map f (seqZ m (Z.of_nat n))).
Proof.
  intros Hf. induction n as [|n IH]; intros m.
  - apply SSorted_nil.
  - rewrite seqZ_succ. cbn [map]. apply SSorted_cons; [apply IH|].
    apply List.Forall_forall. intros y Hy.
    apply in_map_iff in Hy as (x & <- & Hx).
    apply list_elem_of_In, elem_of_seqZ in Hx. apply Hf. lia.
Qed.

Lemma predict_loop_stamps (dailyPatterns : list DailyPattern.t)
    (weeklyPatterns : list WeeklyPattern.t) (lastEntries : list MoodEnergyEntry)
    (now : Z) (rounds : nat) :
  forall (i : Z) (acc : list PredictionData) (w : World),
  exists ps,
    fst (predict_loop dailyPatterns weeklyPatterns lastEntries now rounds i acc w)
      = Resolved (acc ++ ps) /\
    map p_timestamp ps =
      map (fun j => (now + j * 60 * 60 * 1000)%Z) (seqZ i (Z.of_nat rounds)).
Proof.
  induction rounds as [|rounds IH]; intros i acc w.
  - exists []. by rewrite app_nil_r.
  - cbn [predict_loop]. unfold bind.
    destruct (predict_step_run dailyPatterns weeklyPatterns lastEntries now i w)
      as (p & hc & dc & Hrun & Hstamp & _).
    rewrite Hrun.
    destruct (IH (i + 1)%Z (acc ++ [p])
                 {| storage := storage w; clock := clock w; draws := S (S (draws w)) |})
      as (ps & Hloop & Hstamps).
    exists (p :: ps). rewrite Hloop, <- app_assoc. split; [done|].
    rewrite seqZ_succ. cbn [map]. by rewrite Hstamp, Hstamps.
Qed.

(** X1. The forecast has one point per requested hour, stamped one hour
    apart from the hour after the call time on, in increasing order. *)
Theorem forecast_timestamps_hourly (hoursAhead : Z) (w : World) :
  exists ps w',
    generatePredictions hoursAhead w = (Resolved ps, w') /\
    map p_timestamp ps =
      map (fun i => (clock w + i * 3600000)%Z) (seqZ 1 hoursAhead) /\
    StronglySorted Z.lt (map p_timestamp ps).
Proof.
  destruct (generatePredictions_resolves hoursAhead w) as (ps & w' & Hrun).
  exists ps, w'. split; [done|].
  pose proof (predict_loop_stamps (default [] (DAILY_PATTERNS (storage w)))
                (default [] (WEEKLY_PATTERNS (storage w)))
                (slice_last 10 (stored_entries w)) (clock w)
                (Z.to_nat hoursAhead) 1 [] w) as (ps' & Hfst & Hstamps).
  rewrite <- generatePredictions_unfold, Hrun in Hfst.
  cbn [fst app] in Hfst. injection Hfst as <-.
  rewrite seqZ_to_nat in Hstamps.
  assert (Heq : map p_timestamp ps =
                map (fun i => (clock w + i * 3600000)%Z) (seqZ 1 hoursAhead)).
  { rewrite Hstamps. apply map_ext. intros j. lia. }
  split; [done|]. rewrite Heq, <- seqZ_to_nat.
  apply increasing_map_sorted. intros x y Hxy. lia.
Qed.

(** X2. A forecast reads the store and the clock and changes neither; it
    consumes two random values per point and nothing else. *)
Theorem forecast_leaves_store_alone (hoursAhead : Z) (w : World) :
  exists ps,
    generatePredictions hoursAhead w =
      (Resolved ps,
       {| storage := storage w; clock := clock w;
          draws := (draws w + 2 * Z.to_nat hoursAhead)%nat |}) /\
    length ps = Z.to_nat hoursAhead.
Proof.
  rewrite generatePredictions_unfold.
  destruct (predict_loop_run (fun _ => True)
              (default [] (DAILY_PATTERNS (storage w)))
              (default [] (WEEKLY_PATTERNS (storage w)))
              (slice_last 10 (stored_entries w)) (clock w)) with
    (rounds := Z.to_nat hoursAhead) (i := 1%Z) (acc := @nil PredictionData) (w := w)
    as (ps & Hrun & Hlen & _); [done|].
  exists ps. by rewrite Hrun.
Qed.

(** *** More on the analyses *)

Lemma daily_entry_count (es : list MoodEnergyEntry) (h : Z) :
  (0 <= h < 24)%Z ->
  DailyPattern.entryCount (daily_entry (group_entries getHours es) h)
    = Z.of_nat (length (bucket_of getHours h es)).
Proof.
  intros Hh. destruct (bucket_of getHours h es) as [|e b] eqn:Hb.
  - rewrite daily_entry_default by done. by destruct (table_hour h Hh) as [_ ->].
  - rewrite daily_entry_blended by (rewrite ?Hb; simpl; lia).
    by rewrite Hb.
Qed.

Lemma weekly_entry_count (es : list MoodEnergyEntry) (d : Z) :
  (0 <= d < 7)%Z ->
  WeeklyPattern.entryCount (weekly_entry (group_entries getDay es) d)
    = Z.of_nat (length (bucket_of getDay d es)).
Proof.
  intros Hd. destruct (bucket_of getDay d es) as [|e b] eqn:Hb.
  - rewrite weekly_entry_default by done. by destruct (table_day d Hd) as [_ ->].
  - rewrite weekly_entry_blended by (rewrite ?Hb; simpl; lia).
    by rewrite Hb.
Qed.

Lemma total_add (f g : Z -> Z) (l : list Z) :
  total (map (fun k => (f k + g k)%Z) l) = (total (map f l) + total (map g l))%Z.
Proof. induction l as [|k l IH]; simpl; [done|]. rewrite IH. lia. Qed.

Lemma total_indicator (c : Z) (n : nat) :
  forall m,
    total (map (fun k => if (c =? k)%Z then 1%Z else 0%Z) (seqZ m (Z.of_nat n)))
      = if ((m <=? c) && (c <? m + Z.of_nat n))%Z then 1%Z else 0%Z.
Proof.
  induction n as [|n IH]; intros m.
  - change (seqZ m (Z.of_nat 0)) with (@nil Z). cbn [map total foldr].
    destruct (Z.leb_spec m c), (Z.ltb_spec c (m + Z.of_nat 0)); simpl; lia.
  - rewrite seqZ_succ. cbn [map total foldr]. fold (total (map (fun k => if (c =? k)%Z then 1%Z else 0%Z)
      (seqZ (m + 1) (Z.of_nat n)))). rewrite IH.
    destruct (Z.eqb_spec c m), (Z.leb_spec m c), (Z.ltb_spec c (m + Z.of_nat (S n))),
      (Z.leb_spec (m + 1) c), (Z.ltb_spec c (m + 1 + Z.of_nat n)); simpl; lia.
Qed.

(** Buckets partition the samples whose key is one of the loop's keys. *)
Lemma bucket_lengths_total (key : Z -> Z) (n : nat) (es : list MoodEnergyEntry) :
  (forall e, In e es -> (0 <= key (timestamp e) < Z.of_nat n)%Z) ->
  total (map (fun k => Z.of_nat (length (bucket_of key k es))) (seqZ 0 (Z.of_nat n)))
    = Z.of_nat (length es).
Proof.
  induction es as [|e es IH]; intros Hkeys.
  - simpl. induction (seqZ 0 (Z.of_nat n)) as [|k l IHl]; simpl; [done|]. by rewrite IHl.
  - rewrite (map_ext _ (fun k => ((if (key (timestamp e) =? k)%Z then 1 else 0)
                                  + Z.of_nat (length (bucket_of key k es)))%Z)).
    2:{ intros k. unfold bucket_of. simpl.
        destruct (key (timestamp e) =? k)%Z; simpl; lia. }
    rewrite total_add, total_indicator, IH by (intros e' He'; apply Hkeys; by right).
    specialize (Hkeys e (or_introl eq_refl)).
    destruct (Z.leb_spec 0 (key (timestamp e))),
      (Z.ltb_spec (key (timestamp e)) (0 + Z.of_nat n)); simpl length; simpl; lia.
Qed.

(** X3. The weekly blend is computed in double precision.  For a day
    whose bucket holds [n >= 1] samples, the list [analyzeWeeklyPatterns]
    builds has, at that day, mood and energy
    [round(rawMean * dataWeight + baseline * (1 - dataWeight))] where
    [dataWeight = min(n / 15, 0.7)], [rawMean] is the sum of the bucket's
    values in stored order divided by [n], every operation is the binary64
    one, and [entryCount = n]. *)
Theorem weekly_blend (w : World) (d : Z) :
  let bucket := bucket_of getDay d (stored_entries w) in
  let n := length bucket in
  let dataWeight :=
    Binary64.Math_min (Binary64.of_nat n / Binary64.of_Z 15)%float Binary64.lit_0_7 in
  let rawMean (field : MoodEnergyEntry -> Q) :=
    (Binary64.sum (map Binary64.of_Q (map field bucket)) / Binary64.of_nat n)%float in
  let baseline := getDefaultPatternForDay d in
  (0 <= d < 7)%Z -> (1 <= n)%nat ->
  Binary64.weeklyPatterns getDay (stored_entries w) !! Z.to_nat d = Some
    {| Binary64.Weekly.dayOfWeek := d;
       Binary64.Weekly.averageMood :=
         Binary64.Math_round
           (rawMean mood * dataWeight
            + Binary64.of_Q (WeeklyPattern.averageMood baseline)
              * (Binary64.of_Z 1 - dataWeight))%float;
       Binary64.Weekly.averageEnergy :=
         Binary64.Math_round
           (rawMean energy * dataWeight
            + Binary64.of_Q (WeeklyPattern.averageEnergy baseline)
              * (Binary64.of_Z 1 - dataWeight))%float;
       Binary64.Weekly.entryCount := Z.of_nat n |}.
Proof.
  intros bucket n dataWeight rawMean baseline Hd Hn.
  rewrite binary64_weeklyPatterns_lookup by done. f_equal.
  unfold Binary64.weekly_entry. rewrite group_entries_lookup. fold bucket.
  destruct (nonempty_length bucket Hn) as (e0 & b' & Hb).
  destruct (binary64_day_baseline d Hd) as [Hm He].
  let c := eval vm_compute in (Binary64.of_Z 60) in
  change (Binary64.of_Z 60) with c in Hm, He.
  cbv zeta. rewrite Hm, He.
  subst n. rewrite Hb. rewrite <- Hb. cbn [moods energies].
  rewrite !length_map.
  rewrite (proj2 (Nat.ltb_lt 0 (length bucket))) by lia.
  reflexivity.
Qed.

(** X4. The [entryCount] of every hour (day) of an analysis is the number
    of stored samples of that hour (day); when every stored sample falls on
    an hour 0..23 (a day 0..6), the counts add up to the number of stored
    samples. *)
Theorem analysis_counts_every_sample (w : World) :
  (forall e, In e (stored_entries w) ->
             (0 <= getHours (timestamp e) < 24)%Z /\ (0 <= getDay (timestamp e) < 7)%Z) ->
  exists ds ws w1 w2,
    analyzeDailyPatterns w = (Resolved ds, w1) /\
    analyzeWeeklyPatterns w = (Resolved ws, w2) /\
    (forall h, (0 <= h < 24)%Z ->
       DailyPattern.entryCount <$> ds !! Z.to_nat h
         = Some (Z.of_nat (length (bucket_of getHours h (stored_entries w))))) /\
    (forall d, (0 <= d < 7)%Z ->
       WeeklyPattern.entryCount <$> ws !! Z.to_nat d
         = Some (Z.of_nat (length (bucket_of getDay d (stored_entries w))))) /\
    total (map DailyPattern.entryCount ds) = Z.of_nat (length (stored_entries w)) /\
    total (map WeeklyPattern.entryCount ws) = Z.of_nat (length (stored_entries w)).
Proof.
  intros Hkeys.
  rewrite analyzeDailyPatterns_run, analyzeWeeklyPatterns_run. cbv zeta.
  eexists _, _, _, _. split; [done|]. split; [done|].
  split; [|split; [|split]].
  - intros h Hh. rewrite lookup_map_seqZ by done. simpl.
    by rewrite daily_entry_count.
  - intros d Hd. rewrite lookup_map_seqZ by done. simpl.
    by rewrite weekly_entry_count.
  - rewrite map_map.
    rewrite <- (bucket_lengths_total getHours 24 (stored_entries w))
      by (intros e He; apply (Hkeys e He)).
    f_equal. apply map_ext_in. intros h Hh.
    apply list_elem_of_In, elem_of_seqZ in Hh. apply daily_entry_count. lia.
  - rewrite map_map.
    rewrite <- (bucket_lengths_total getDay 7 (stored_entries w))
      by (intros e He; apply (Hkeys e He)).
    f_equal. apply map_ext_in. intros d Hd.
    apply list_elem_of_In, elem_of_seqZ in Hd. apply weekly_entry_count. lia.
Qed.

(** X5. An analysis can be repeated and the two analyses can be run in
    either order: a second [analyzeDailyPatterns] resolves with the same list
    and leaves the world as the first left it, and daily-then-weekly ends in
    the same world, with the same two lists, as weekly-then-daily. *)
Theorem analyses_repeat_and_commute (w : World) :
  let d1 := analyzeDailyPatterns w in
  let k1 := analyzeWeeklyPatterns w in
  analyzeDailyPatterns (snd d1) = d1 /\
  analyzeWeeklyPatterns (snd k1) = k1 /\
  fst (analyzeWeeklyPatterns (snd d1)) = fst k1 /\
  fst (analyzeDailyPatterns (snd k1)) = fst d1 /\
  snd (analyzeWeeklyPatterns (snd d1)) = snd (analyzeDailyPatterns (snd k1)).
Proof.
  cbv zeta.
  repeat first [ rewrite analyzeDailyPatterns_run | rewrite analyzeWeeklyPatterns_run
               | progress cbn [fst snd] | progress cbv zeta ].
  unfold stored_entries. cbn [storage ENTRIES DAILY_PATTERNS WEEKLY_PATTERNS LAST_ENTRY
    clock draws]. done.
Qed.

(** *** Forecasts over baseline patterns *)

Lemma find_hour_absent (h : Z) (l : list DailyPattern.t) :
  Forall (fun p => DailyPattern.hour p <> h) l -> find_hour h l = None.
Proof.
  unfold find_hour. induction 1 as [|p l Hp _ IH]; simpl; [done|].
  by rewrite (proj2 (Z.eqb_neq _ _) Hp).
Qed.

Lemma find_day_absent (d : Z) (l : list WeeklyPattern.t) :
  Forall (fun p => WeeklyPattern.dayOfWeek p <> d) l -> find_day d l = None.
Proof.
  unfold find_day. induction 1 as [|p l Hp _ IH]; simpl; [done|].
  by rewrite (proj2 (Z.eqb_neq _ _) Hp).
Qed.

Lemma default_hour_count (h : Z) :
  DailyPattern.entryCount (getDefaultPatternForHour h) = 0%Z.
Proof.
  unfold getDefaultPatternForHour.
  destruct (find_hour h DEFAULT_DAILY_PATTERNS) as [p|] eqn:Hp; [|done].
  apply find_some in Hp as [Hin _]. simpl.
  revert p Hin. apply List.Forall_forall.
  repeat (apply List.Forall_cons; [reflexivity|]). apply List.Forall_nil.
Qed.

Lemma default_day_count (d : Z) :
  WeeklyPattern.entryCount (getDefaultPatternForDay d) = 0%Z.
Proof.
  unfold getDefaultPatternForDay.
  destruct (find_day d DEFAULT_WEEKLY_PATTERNS) as [p|] eqn:Hp; [|done].
  apply find_some in Hp as [Hin _]. simpl.
  revert p Hin. apply List.Forall_forall.
  repeat (apply List.Forall_cons; [reflexivity|]). apply List.Forall_nil.
Qed.

(** Looking an hour up in the stored result of an analysis of no samples,
    with the fallback of the forecast, gives what the fallback alone gives. *)
Lemma stored_baseline_hour (h : Z) :
  match find_hour h (map getDefaultPatternForHour (seqZ 0 24)) with
  | Some p => p
  | None => default (neutral_hour h) (find_hour h DEFAULT_DAILY_PATTERNS)
  end = default (neutral_hour h) (find_hour h DEFAULT_DAILY_PATTERNS).
Proof.
  destruct (decide (0 <= h < 24)%Z) as [Hh|Hh].
  - revert h Hh. apply each_hour. rewrite seqZ_24.
    repeat (apply List.Forall_cons; [reflexivity|]). apply List.Forall_nil.
  - rewrite find_hour_absent; [done|].
    rewrite seqZ_24. cbn [map].
    repeat (apply List.Forall_cons; [cbn; lia|]). apply List.Forall_nil.
Qed.

Lemma stored_baseline_day (d : Z) :
  match find_day d (map getDefaultPatternForDay (seqZ 0 7)) with
  | Some p => p
  | None => default (neutral_day d) (find_day d DEFAULT_WEEKLY_PATTERNS)
  end = default (neutral_day d) (find_day d DEFAULT_WEEKLY_PATTERNS).
Proof.
  destruct (decide (0 <= d < 7)%Z) as [Hd|Hd].
  - revert d Hd. apply each_day. rewrite seqZ_7.
    repeat (apply List.Forall_cons; [reflexivity|]). apply List.Forall_nil.
  - rewrite find_day_absent; [done|].
    rewrite seqZ_7. cbn [map].
    repeat (apply List.Forall_cons; [cbn; lia|]). apply List.Forall_nil.
Qed.

Lemma predict_step_baseline (lastEntries : list MoodEnergyEntry) (now i : Z) (w : World) :
  predict_step (map getDefaultPatternForHour (seqZ 0 24))
               (map getDefaultPatternForDay (seqZ 0 7)) lastEntries now i w
  = predict_step [] [] lastEntries now i w.
Proof.
  unfold predict_step. cbv zeta.
  rewrite !stored_baseline_hour, !stored_baseline_day. done.
Qed.

Lemma predict_loop_baseline (lastEntries : list MoodEnergyEntry) (now : Z) (rounds : nat) :
  forall (i : Z) (acc : list PredictionData) (w : World),
  predict_loop (map getDefaultPatternForHour (seqZ 0 24))
               (map getDefaultPatternForDay (seqZ 0 7)) lastEntries now rounds i acc w
  = predict_loop [] [] lastEntries now rounds i acc w.
Proof.
  induction rounds as [|rounds IH]; intros i acc w; [done|].
  cbn [predict_loop]. unfold bind. rewrite predict_step_baseline.
  destruct (predict_step [] [] lastEntries now i w) as [[p|e] w']; [apply IH | done].
Qed.

(** X6. On a store without samples and without stored patterns, running
    the two analyses before a forecast does not change the forecast: the
    baseline entries the analyses store are the ones the forecast falls back
    to when it finds none. *)
Theorem analysis_of_empty_history_keeps_forecast (hoursAhead : Z) (w : World) :
  stored_entries w = [] ->
  default [] (DAILY_PATTERNS (storage w)) = [] ->
  default [] (WEEKLY_PATTERNS (storage w)) = [] ->
  fst (generatePredictions hoursAhead
         (snd (analyzeWeeklyPatterns (snd (analyzeDailyPatterns w)))))
  = fst (generatePredictions hoursAhead w).
Proof.
  intros Hes Hd Hw.
  rewrite analyzeDailyPatterns_run. cbv zeta. cbn [snd].
  rewrite analyzeWeeklyPatterns_run. cbv zeta. cbn [snd].
  rewrite !generatePredictions_unfold. unfold stored_entries in *.
  cbn [storage ENTRIES DAILY_PATTERNS WEEKLY_PATTERNS clock default from_option].
  rewrite Hes, Hd, Hw.
  rewrite (map_ext (daily_entry (group_entries getHours [])) getDefaultPatternForHour)
    by (intros h; by apply daily_entry_default).
  rewrite (map_ext (weekly_entry (group_entries getDay [])) getDefaultPatternForDay)
    by (intros d; by apply weekly_entry_default).
  rewrite predict_loop_baseline.
  by apply predict_loop_world.
Qed.

Lemma predict_step_unstored (now i : Z) (w : World) :
  exists p w',
    predict_step [] [] [] now i w = (Resolved p, w') /\
    confidence p == 0.6.
Proof.
  unfold predict_step, getTimeBasedVariation, bind, Math_random, ret.
  cbn [find_hour find_day List.find length Nat.leb storage clock draws fst snd].
  eexists _, _. split; [reflexivity|]. cbn [confidence].
  fold (getDefaultPatternForHour (getHours (now + i * 60 * 60 * 1000))).
  fold (getDefaultPatternForDay (getDay (now + i * 60 * 60 * 1000))).
  rewrite default_hour_count, default_day_count. reflexivity.
Qed.

(** X7. After [clearAllData] nothing is stored: the four getters give the
    empty list (or no last entry); and a forecast made then resolves with one
    point per requested hour, each with the base confidence 0.6. *)
Theorem cleared_store_forecast_has_base_confidence (hoursAhead : Z) (w : World) :
  let cleared := snd (LocalStateManager.clearAllData w) in
  fst (LocalStateManager.getEntries cleared) = Resolved [] /\
  fst (LocalStateManager.getDailyPatterns cleared) = Resolved [] /\
  fst (LocalStateManager.getWeeklyPatterns cleared) = Resolved [] /\
  fst (LocalStateManager.getLastEntry cleared) = Resolved None /\
  exists ps w',
    generatePredictions hoursAhead cleared = (Resolved ps, w') /\
    length ps = Z.to_nat hoursAhead /\
    Forall (fun p => confidence p == 0.6) ps.
Proof.
  cbv zeta. repeat (split; [reflexivity|]).
  rewrite generatePredictions_unfold.
  destruct (predict_loop_run (fun p => confidence p == 0.6) [] [] [] (clock w)) with
    (rounds := Z.to_nat hoursAhead) (i := 1%Z) (acc := @nil PredictionData)
    (w := snd (LocalStateManager.clearAllData w))
    as (ps & Hrun & Hlen & Hall).
  - intros i w0 p w' Hstep.
    destruct (predict_step_unstored (clock w) i w0) as (p' & w'' & Hrun & Hc).
    rewrite Hrun in Hstep. by injection Hstep as <- _.
  - eexists _, _. split; [exact Hrun|]. done.
Qed.

(** *** The trend of recent values *)

Lemma slice_last_length {A} (n : nat) (l : list A) :
  length (slice_last n l) = Nat.min n (length l).
Proof. unfold slice_last. rewrite length_drop. lia. Qed.

Lemma sum_acc_between (lo hi : Q) (l : list Q) :
  Forall (fun v => lo <= v <= hi)%Q l ->
  forall a, (a + lo * len l <= fold_left Qplus l a <= a + hi * len l)%Q.
Proof.
  induction 1 as [|v l Hv _ IH]; intros a.
  - unfold len. cbn [length fold_left]. change (inject_Z (Z.of_nat 0)) with 0%Q. lra.
  - cbn [fold_left]. specialize (IH (a + v)%Q). rewrite len_cons. lra.
Qed.

Lemma raw_mean_between (lo hi : Q) (l : list Q) :
  (1 <= length l)%nat -> Forall (fun v => lo <= v <= hi)%Q l ->
  (lo <= raw_mean l <= hi)%Q.
Proof.
  intros Hl Hall. unfold raw_mean, sum.
  pose proof (len_pos l Hl) as Hpos.
  destruct (sum_acc_between lo hi l Hall 0) as [Hlo Hhi].
  split.
  - apply Qle_shift_div_l; [done|]. lra.
  - apply Qle_shift_div_r; [done|]. lra.
Qed.

(** X8. [calculateTrend] is 0 for fewer than four values, and looks at the
    last six values only. *)
Theorem trend_needs_four_and_reads_six (values : list Q) :
  ((length values < 4)%nat -> calculateTrend values = 0%Q) /\
  calculateTrend values = calculateTrend (slice_last 6 values).
Proof.
  split.
  - intros Hlen. unfold calculateTrend, slice_window.
    destruct (length values <? 2)%nat; [done|].
    rewrite length_take, length_drop.
    replace (Nat.min _ _) with 0%nat by lia. done.
  - assert (H3 : slice_last 3 (slice_last 6 values) = slice_last 3 values).
    { unfold slice_last. rewrite length_drop, drop_drop. f_equal. lia. }
    assert (Hw : slice_window 6 3 (slice_last 6 values) = slice_window 6 3 values).
    { unfold slice_window, slice_last. rewrite length_drop, drop_drop.
      f_equal; [lia | f_equal; lia]. }
    unfold calculateTrend. rewrite H3, Hw, slice_last_length.
    destruct (Nat.ltb_spec (length values) 2), (Nat.ltb_spec (Nat.min 6 (length values)) 2);
      first [done | lia].
Qed.

(** X9. When all values lie between [lo] and [hi], the trend lies between
    [-(hi - lo)] and [hi - lo]. *)
Theorem trend_bounded (lo hi : Q) (values : list Q) :
  Forall (fun v => lo <= v <= hi)%Q values ->
  (lo <= hi)%Q ->
  (- (hi - lo) <= calculateTrend values <= hi - lo)%Q.
Proof.
  intros Hall Hle. unfold calculateTrend.
  destruct (Nat.ltb_spec (length values) 2) as [|Hlen]; [lra|].
  destruct (Nat.eqb_spec (length (slice_window 6 3 values)) 0) as [|Holder]; [lra|].
  fold (sum (slice_last 3 values)) (sum (slice_window 6 3 values)).
  fold (raw_mean (slice_last 3 values)) (raw_mean (slice_window 6 3 values)).
  assert (Hr : (lo <= raw_mean (slice_last 3 values) <= hi)%Q).
  { apply raw_mean_between; [rewrite slice_last_length; lia|].
    by apply Forall_drop. }
  assert (Ho : (lo <= raw_mean (slice_window 6 3 values) <= hi)%Q).
  { apply raw_mean_between; [lia|]. by apply Forall_take, Forall_drop. }
  lra.
Qed.

(** X10. With a sine between -1 and 1 at the two phases and random values
    between 0 and 1, the variation added to a forecast point [i >= 0] hours
    ahead is within 5 for mood and within 6.5 for energy; it consumes two
    random values and leaves store and clock alone. *)
Theorem variation_is_small (hour i : Z) (w : World) :
  (0 <= i)%Z ->
  (-1 <= sin_pi ((inject_Z hour - 6) / 24 * 2) <= 1)%Q ->
  (-1 <= sin_pi ((inject_Z hour - 4) / 24 * 2) <= 1)%Q ->
  (0 <= random_values (draws w) <= 1)%Q ->
  (0 <= random_values (S (draws w)) <= 1)%Q ->
  exists m e,
    getTimeBasedVariation hour i w =
      (Resolved (m, e),
       {| storage := storage w; clock := clock w; draws := S (S (draws w)) |}) /\
    (-5 <= m <= 5)%Q /\ (-6.5 <= e <= 6.5)%Q.
Proof.
  intros Hi Hs1 Hs2 Hr1 Hr2.
  unfold getTimeBasedVariation, bind, Math_random, ret.
  cbn [storage clock draws]. eexists _, _. split; [reflexivity|].
  set (rf := Math_max 0.2 (1 - inject_Z i * 0.05)).
  assert (Hrf : (0 <= rf <= 1)%Q).
  { unfold rf, Math_max. split.
    - apply Q.max_le_iff. left. lra.
    - apply Q.max_lub; [lra|].
      assert (0 <= inject_Z i)%Q by (change 0%Q with (inject_Z 0); by rewrite <- Zle_Qle).
      lra. }
  split; nra.
Qed.

(** *** The entry store *)

Lemma saveEntry_run (entry : MoodEnergyEntry) (w : World) :
  LocalStateManager.saveEntry entry w =
    (Resolved tt,
     {| storage :=
          {| ENTRIES := Some (List.filter (fun e => negb (String.eqb (id e) (id entry)))
                                          (stored_entries w) ++ [entry]);
             DAILY_PATTERNS := DAILY_PATTERNS (storage w);
             WEEKLY_PATTERNS := WEEKLY_PATTERNS (storage w);
             LAST_ENTRY := Some entry |};
        clock := clock w; draws := draws w |}).
Proof. reflexivity. Qed.

Lemma filter_filter_same {A} (f : A -> bool) (l : list A) :
  List.filter f (List.filter f l) = List.filter f l.
Proof.
  induction l as [|x l IH]; simpl; [done|].
  destruct (f x) eqn:Hx; simpl; [by rewrite Hx, IH | done].
Qed.



(** X12. [saveEntry] keeps the ids of the stored entries distinct and adds
    at most one entry, exactly one when the id is new; saving the same entry
    again changes nothing. *)
Theorem saving_keeps_ids_distinct (e : MoodEnergyEntry) (w : World) :
  NoDup (map id (stored_entries w)) ->
  let w' := snd (LocalStateManager.saveEntry e w) in
  NoDup (map id (stored_entries w')) /\
  (length (stored_entries w') <= S (length (stored_entries w)))%nat /\
  (~ In (id e) (map id (stored_entries w)) ->
   length (stored_entries w') = S (length (stored_entries w))) /\
  snd (LocalStateManager.saveEntry e w') = w'.
Proof.
  intros Hnd. cbv zeta. rewrite !saveEntry_run. cbn [fst snd].
  set (keep := fun x : MoodEnergyEntry => negb (String.eqb (id x) (id e))).
  match goal with |- context [NoDup (map id (stored_entries ?w1))] =>
    assert (Hst : stored_entries w1 = List.filter keep (stored_entries w) ++ [e])
      by reflexivity
  end.
  rewrite !Hst.
  cbn [storage ENTRIES DAILY_PATTERNS WEEKLY_PATTERNS LAST_ENTRY clock draws].
  assert (Hkeep : forall l, NoDup (map id l) ->
            NoDup (map id (List.filter keep l ++ [e]))).
  { intros l Hl. rewrite map_app. apply NoDup_app. split; [|split].
    - induction l as [|x l IH]; simpl; [constructor|].
      apply NoDup_cons in Hl as [Hx Hl].
      destruct (keep x); [|by apply IH].
      simpl. apply NoDup_cons. split; [|by apply IH].
      intros Hin. apply Hx. apply list_elem_of_In in Hin. apply list_elem_of_In.
      apply in_map_iff in Hin as (y & Hy & Hin). apply in_map_iff.
      exists y. split; [done|]. by apply filter_In in Hin as [Hin _].
    - intros i Hi Hie. apply list_elem_of_In in Hi. simpl in Hie.
      apply list_elem_of_In in Hie as [<-|[]].
      apply in_map_iff in Hi as (y & Hy & Hin).
      apply filter_In in Hin as [_ Hk]. unfold keep in Hk.
      rewrite Hy, String.eqb_refl in Hk. done.
    - simpl. apply NoDup_singleton. }
  split; [by apply Hkeep|]. split; [|split].
  - rewrite length_app. simpl.
    pose proof (filter_length_le keep (stored_entries w)). lia.
  - intros Hnew. rewrite length_app. simpl.
    rewrite (forallb_filter_id keep (stored_entries w)); [lia|].
    apply forallb_forall. intros x Hx. unfold keep.
    destruct (String.eqb_spec (id x) (id e)) as [Hxe|]; [|done].
    exfalso. apply Hnew. rewrite <- Hxe. by apply in_map.
  - f_equal. f_equal. f_equal.
    rewrite List.filter_app. cbn [List.filter]. fold keep.
    replace (keep e) with false by (unfold keep; by rewrite String.eqb_refl).
    by rewrite app_nil_r, filter_filter_same.
Qed.

Lemma insert_by_timestamp_perm (x : MoodEnergyEntry) (l : list MoodEnergyEntry) :
  Permutation (LocalStateManager.insert_by_timestamp x l) (x :: l).
Proof.
  induction l as [|y l IH]; simpl; [done|].
  destruct (timestamp y <? timestamp x)%Z; [|done].
  rewrite IH. apply perm_swap.
Qed.

Lemma sort_by_timestamp_perm (l : list MoodEnergyEntry) :
  Permutation (LocalStateManager.sort_by_timestamp l) l.
Proof.
  induction l as [|x l IH]; simpl; [done|].
  rewrite insert_by_timestamp_perm. by constructor.
Qed.

Lemma insert_by_timestamp_sorted (x : MoodEnergyEntry) (l : list MoodEnergyEntry) :
  StronglySorted (fun a b => (timestamp a <= timestamp b)%Z) l ->
  StronglySorted (fun a b => (timestamp a <= timestamp b)%Z)
                 (LocalStateManager.insert_by_timestamp x l).
Proof.
  induction 1 as [|y l Hl IH Hy]; simpl.
  - apply SSorted_cons; [apply SSorted_nil | apply List.Forall_nil].
  - destruct (Z.ltb_spec (timestamp y) (timestamp x)) as [Hlt|Hge].
    + apply SSorted_cons; [done|].
      rewrite insert_by_timestamp_perm. apply List.Forall_cons; [lia | done].
    + apply SSorted_cons; [by apply SSorted_cons|].
      apply List.Forall_cons; [done|].
      eapply Forall_impl; [exact Hy|]. intros z Hz. simpl in Hz. lia.
Qed.

Lemma insert_by_timestamp_stable (t : Z) (x : MoodEnergyEntry) (l : list MoodEnergyEntry) :
  List.filter (fun e => (timestamp e =? t)%Z) (LocalStateManager.insert_by_timestamp x l)
  = List.filter (fun e => (timestamp e =? t)%Z) (x :: l).
Proof.
  induction l as [|y l IH]; [done|].
  cbn [LocalStateManager.insert_by_timestamp].
  destruct (Z.ltb_spec (timestamp y) (timestamp x)) as [Hlt|Hge]; [|done].
  cbn [List.filter] in *. rewrite IH.
  destruct (Z.eqb_spec (timestamp y) t), (Z.eqb_spec (timestamp x) t); first [done | lia].
Qed.

(** X13. [getEntriesInRange] resolves, without touching the world, with
    the stored entries whose timestamp lies between the two bounds
    (inclusive), each as often as it is stored, in ascending order of
    timestamp, entries with equal timestamps in their stored order. *)
Theorem entries_in_range_sorted (startTime endTime : Z) (w : World) :
  let inside := List.filter (fun e => ((startTime <=? timestamp e)
                                       && (timestamp e <=? endTime))%Z)
                            (stored_entries w) in
  exists l,
    LocalStateManager.getEntriesInRange startTime endTime w = (Resolved l, w) /\
    StronglySorted (fun a b => (timestamp a <= timestamp b)%Z) l /\
    Permutation l inside /\
    (forall e, In e l <->
               In e (stored_entries w) /\ (startTime <= timestamp e <= endTime)%Z) /\
    (forall t, List.filter (fun e => (timestamp e =? t)%Z) l
               = List.filter (fun e => (timestamp e =? t)%Z) inside).
Proof.
  cbv zeta. eexists. split; [reflexivity|].
  fold (stored_entries w).
  set (inside := List.filter _ (stored_entries w)).
  split; [|split; [|split]].
  - induction inside as [|x l IH]; simpl; [apply SSorted_nil|].
    by apply insert_by_timestamp_sorted.
  - apply sort_by_timestamp_perm.
  - intros e.
    assert (Hin : In e inside <->
                  In e (stored_entries w) /\ (startTime <= timestamp e <= endTime)%Z).
    { unfold inside. rewrite filter_In, andb_true_iff, !Z.leb_le. done. }
    rewrite <- Hin. split; apply Permutation_in;
      [apply sort_by_timestamp_perm | apply Permutation_sym, sort_by_timestamp_perm].
  - intros t. induction inside as [|x l IH]; [done|].
    cbn [LocalStateManager.sort_by_timestamp foldr].
    rewrite insert_by_timestamp_stable. cbn [List.filter].
    fold (LocalStateManager.sort_by_timestamp l). by rewrite IH.
Qed.

(** *** The insights screen *)

(** X14. [getUpcomingEnergyDip] gives nothing exactly when no prediction
    is below 40 (and then [findEnergyDips] keeps no point either); otherwise
    it gives the time and energy of the first prediction below 40. *)
Theorem upcoming_dip_is_first_below_40 (predictions : list PredictionData) :
  match getUpcomingEnergyDip predictions with
  | None =>
      Forall (fun p => (40 <= predictedEnergy p)%Z) predictions /\
      energy_dips predictions = []
  | Some dip =>
      exists before p after,
        predictions = before ++ p :: after /\
        Forall (fun q => (40 <= predictedEnergy q)%Z) before /\
        (predictedEnergy p < 40)%Z /\
        dip = {| time := toLocaleTimeString (p_timestamp p);
                 dip_energy := predictedEnergy p |}
  end.
Proof.
  unfold getUpcomingEnergyDip.
  induction predictions as [|q ps IH]; cbn [List.filter].
  - split; [constructor | done].
  - destruct (Z.ltb_spec (predictedEnergy q) 40) as [Hlt|Hge].
    + exists [], q, ps. repeat split; [constructor | done].
    + destruct (List.filter _ ps) as [|d ds].
      * destruct IH as [Hall Hdips]. split; [by constructor|].
        unfold energy_dips in *. cbn [List.filter]. rewrite Hdips.
        unfold is_dip. destruct (gt_number (confidence q) 0.7);
          by rewrite (proj2 (Z.ltb_ge _ _)) by lia.
      * destruct IH as (before & p & after & -> & Hbefore & Hp & Hdip).
        exists (q :: before), p, after. repeat split; [by constructor | done | done].
Qed.

Lemma fold_sum_field {A} (f : A -> Q) (l : list A) (a : Q) :
  fold_left (fun sum x => (sum + f x)%Q) l a = fold_left Qplus (map f l) a.
Proof. revert a. induction l as [|x l IH]; intros a; simpl; [done | apply IH]. Qed.

Lemma field_mean_between (f : MoodEnergyEntry -> Q) (lo hi : Q)
    (l : list MoodEnergyEntry) :
  (1 <= length l)%nat ->
  Forall (fun e => lo <= f e <= hi)%Q l ->
  (lo <= fold_left (fun sum e => sum + f e) l 0 / len l <= hi)%Q.
Proof.
  intros Hl Hf. rewrite (fold_sum_field f).
  replace (len l) with (len (map f l)) by (unfold len; by rewrite length_map).
  apply (raw_mean_between _ _ (map f l)); [by rewrite length_map|].
  by apply Forall_map.
Qed.

(** X15. [getAverages] is (0, 0) without entries; when every mood and
    energy lies between two whole numbers (0 and 100, say), so do the two
    averages. *)
Theorem averages_stay_in_range (lo hi : Z) (entries : list MoodEnergyEntry) :
  Forall (fun e => (inject_Z lo <= mood e <= inject_Z hi)%Q /\
                   (inject_Z lo <= energy e <= inject_Z hi)%Q) entries ->
  Insights.getAverages [] = (0%Z, 0%Z) /\
  ((1 <= length entries)%nat ->
   (lo <= fst (Insights.getAverages entries) <= hi)%Z /\
   (lo <= snd (Insights.getAverages entries) <= hi)%Z).
Proof.
  intros Hall. split; [done|]. intros Hlen.
  unfold Insights.getAverages.
  destruct (Nat.eqb_spec (length entries) 0) as [|_]; [lia|].
  cbn [fst snd].
  destruct (field_mean_between mood (inject_Z lo) (inject_Z hi) entries Hlen)
    as [Hm1 Hm2]; [eapply Forall_impl; [exact Hall|]; by intros e [? ?]|].
  destruct (field_mean_between energy (inject_Z lo) (inject_Z hi) entries Hlen)
    as [He1 He2]; [eapply Forall_impl; [exact Hall|]; by intros e [? ?]|].
  split; by apply Math_round_between.
Qed.

Lemma take_half_drop_half {A} (l : list A) :
  take (length l / 2) l ++ slice_last ((length l + 1) / 2) l = l.
Proof.
  unfold slice_last.
  replace (length l - (length l + 1) / 2)%nat with (length l / 2)%nat.
  - apply take_drop.
  - pose proof (Nat.div_mod_eq (length l) 2). pose proof (Nat.div_mod_eq (length l + 1) 2).
    pose proof (Nat.mod_upper_bound (length l) 2). pose proof (Nat.mod_upper_bound (length l + 1) 2).
    lia.
Qed.

(** X16. [getTrends] is (0, 0) for fewer than two entries.  For two or
    more, the older and the recent half it compares make up the entries
    (the middle one of an odd number counts as recent), and when every mood
    and energy lies between [lo] and [hi] both trends lie between
    [-(hi - lo)] and [hi - lo]. *)
Theorem insight_trends_bounded (lo hi : Z) (entries : list MoodEnergyEntry) :
  Forall (fun e => (inject_Z lo <= mood e <= inject_Z hi)%Q /\
                   (inject_Z lo <= energy e <= inject_Z hi)%Q) entries ->
  ((length entries < 2)%nat -> Insights.getTrends entries = (0%Z, 0%Z)) /\
  take (length entries / 2) entries ++ slice_last ((length entries + 1) / 2) entries
    = entries /\
  ((2 <= length entries)%nat ->
   (- (hi - lo) <= fst (Insights.getTrends entries) <= hi - lo)%Z /\
   (- (hi - lo) <= snd (Insights.getTrends entries) <= hi - lo)%Z).
Proof.
  intros Hall. split; [|split; [apply take_half_drop_half|]].
  - intros Hlen. unfold Insights.getTrends.
    by rewrite (proj2 (Nat.ltb_lt _ _) Hlen).
  - intros Hlen. unfold Insights.getTrends.
    rewrite (proj2 (Nat.ltb_ge _ _)) by lia. cbn [fst snd].
    set (recent := slice_last ((length entries + 1) / 2) entries).
    set (older := take (length entries / 2) entries).
    assert (Hhalf : (1 <= length entries / 2)%nat).
    { pose proof (Nat.div_mod_eq (length entries) 2).
      pose proof (Nat.mod_upper_bound (length entries) 2). lia. }
    assert (Hr : (1 <= length recent)%nat).
    { unfold recent. rewrite slice_last_length.
      pose proof (Nat.div_mod_eq (length entries + 1) 2).
      pose proof (Nat.mod_upper_bound (length entries + 1) 2). lia. }
    assert (Ho : (1 <= length older)%nat).
    { unfold older. rewrite length_take. lia. }
    assert (Hrall : Forall (fun e => (inject_Z lo <= mood e <= inject_Z hi)%Q /\
                                     (inject_Z lo <= energy e <= inject_Z hi)%Q) recent)
      by (by apply Forall_drop).
    assert (Hoall : Forall (fun e => (inject_Z lo <= mood e <= inject_Z hi)%Q /\
                                     (inject_Z lo <= energy e <= inject_Z hi)%Q) older)
      by (by apply Forall_take).
    assert (Hdiff : forall a b : Q,
              (inject_Z lo <= a <= inject_Z hi)%Q -> (inject_Z lo <= b <= inject_Z hi)%Q ->
              (- (hi - lo) <= Math_round (a - b) <= hi - lo)%Z).
    { intros a b Ha Hb. apply Math_round_between.
      - rewrite inject_Z_opp. unfold Z.sub. rewrite inject_Z_plus, inject_Z_opp. lra.
      - unfold Z.sub. rewrite inject_Z_plus, inject_Z_opp. lra. }
    split; apply Hdiff; apply field_mean_between; try done;
      (eapply Forall_impl; [eassumption|]); by intros e [? ?].
Qed.

Lemma better_day_fold (rest : list WeeklyPattern.t) :
  forall first,
    let best := fold_left Insights.better_day rest first in
    In best (first :: rest) /\
    Forall (fun q => (WeeklyPattern.averageMood q + WeeklyPattern.averageEnergy q
                      <= WeeklyPattern.averageMood best + WeeklyPattern.averageEnergy best)%Q)
           (first :: rest).
Proof.
  induction rest as [|cur rest IH]; intros first; cbn [fold_left].
  - split; [by left|]. apply List.Forall_cons; [lra | constructor].
  - destruct (IH (Insights.better_day first cur)) as [Hin Hmax]. cbv zeta in *.
    set (best := fold_left Insights.better_day rest (Insights.better_day first cur)) in *.
    apply Forall_cons in Hmax as [Hhead Hrest].
    unfold Insights.better_day, gt_number in Hin, Hhead.
    destruct (Qle_bool _ _) eqn:Hle in Hin, Hhead; cbn [negb] in Hin, Hhead.
    + apply Qle_bool_iff in Hle. split.
      * destruct Hin as [<-|Hin]; [by left | by right; right].
      * apply List.Forall_cons; [done|]. apply List.Forall_cons; [lra | done].
    + assert (Hlt : ~ (WeeklyPattern.averageMood cur + WeeklyPattern.averageEnergy cur
                       <= WeeklyPattern.averageMood first + WeeklyPattern.averageEnergy first)%Q).
      { intros Hc. apply Qle_bool_iff in Hc. congruence. }
      apply Qnot_le_lt in Hlt. split.
      * destruct Hin as [<-|Hin]; [by right; left | by right; right].
      * apply List.Forall_cons; [lra|]. apply List.Forall_cons; [done | done].
Qed.

(** X17. On what [analyzeWeeklyPatterns] resolves with, [getBestDayOfWeek]
    always names a day of the week: the name of the day of one of the seven
    patterns, whose mood plus energy no other pattern exceeds. *)
Theorem best_day_is_a_weekday (w : World) :
  exists ps w' best name,
    analyzeWeeklyPatterns w = (Resolved ps, w') /\
    Insights.getBestDayOfWeek ps = Some name /\
    In best ps /\
    Insights.dayNames !! Z.to_nat (WeeklyPattern.dayOfWeek best) = Some name /\
    In name Insights.dayNames /\
    Forall (fun q => (WeeklyPattern.averageMood q + WeeklyPattern.averageEnergy q
                      <= WeeklyPattern.averageMood best + WeeklyPattern.averageEnergy best)%Q)
           ps.
Proof.
  rewrite analyzeWeeklyPatterns_run. cbv zeta.
  set (ps := map (weekly_entry (group_entries getDay (stored_entries w))) (seqZ 0 7)).
  assert (Hdays : Forall (fun p => (0 <= WeeklyPattern.dayOfWeek p < 7)%Z) ps).
  { apply List.Forall_forall. intros p Hp. apply in_map_iff in Hp as (d & <- & Hd).
    rewrite weekly_entry_day. by apply list_elem_of_In, elem_of_seqZ in Hd. }
  assert (Hps : exists first rest, ps = first :: rest).
  { unfold ps. rewrite seqZ_7. cbn [map]. eauto. }
  destruct Hps as (first & rest & Hps).
  destruct (better_day_fold rest first) as [Hin Hmax]. cbv zeta in Hin, Hmax.
  set (best := fold_left Insights.better_day rest first) in *.
  rewrite <- Hps in Hin, Hmax.
  assert (Hbest : (0 <= WeeklyPattern.dayOfWeek best < 7)%Z).
  { exact (proj1 (List.Forall_forall _ ps) Hdays best Hin). }
  destruct (Insights.dayNames !! Z.to_nat (WeeklyPattern.dayOfWeek best)) as [name|] eqn:Hname.
  2:{ apply lookup_ge_None in Hname. simpl in Hname. lia. }
  eexists _, _, best, name. split; [done|].
  split; [|split; [done|split; [done|split; [|done]]]].
  - rewrite Hps. unfold Insights.getBestDayOfWeek. fold best.
    by rewrite (proj2 (Z.leb_le _ _)) by lia.
  - apply list_elem_of_In. by eapply list_elem_of_lookup_2.
Qed.

(** *** Short histories, dips and defaults *)

Lemma calculateTrend_short (values : list Q) :
  (length values < 4)%nat -> calculateTrend values = 0%Q.
Proof.
  intros Hlen. unfold calculateTrend, slice_window.
  destruct (length values <? 2)%nat; [done|].
  rewrite length_take, length_drop.
  replace (Nat.min _ _) with 0%nat by lia. done.
Qed.

Lemma clamp_round_comp (x y : Q) :
  x == y ->
  Math_round (Math_max 10 (Math_min 90 x)) = Math_round (Math_max 10 (Math_min 90 y)).
Proof.
  intros Hxy. apply Math_round_comp. unfold Math_max, Math_min.
  apply Q.max_compat; [reflexivity|]. by apply Q.min_compat.
Qed.

(** With fewer than four recent samples a round predicts the mood and energy
    it predicts without any. *)
Lemma predict_step_short (dailyPatterns : list DailyPattern.t)
    (weeklyPatterns : list WeeklyPattern.t) (lastEntries : list MoodEnergyEntry)
    (now i : Z) (w1 w2 : World) :
  (length lastEntries < 4)%nat -> draws w1 = draws w2 ->
  exists p q,
    fst (predict_step dailyPatterns weeklyPatterns lastEntries now i w1) = Resolved p /\
    fst (predict_step dailyPatterns weeklyPatterns [] now i w2) = Resolved q /\
    p_timestamp p = p_timestamp q /\
    predictedMood p = predictedMood q /\
    predictedEnergy p = predictedEnergy q.
Proof.
  intros Hlen Hd.
  unfold predict_step, getTimeBasedVariation, bind, Math_random, ret.
  cbn [storage clock draws fst snd].
  change (3 <=? length (@nil MoodEnergyEntry))%nat with false.
  rewrite !calculateTrend_short by (rewrite length_map; lia).
  destruct (3 <=? length lastEntries)%nat; cbv beta iota; cbn [fst]; eexists _, _;
    (split; [reflexivity|]); (split; [reflexivity|]);
    cbn [p_timestamp predictedMood predictedEnergy]; rewrite Hd;
    (split; [reflexivity|]); split; first [reflexivity | apply clamp_round_comp; ring].
Qed.

Lemma predict_loop_short (dailyPatterns : list DailyPattern.t)
    (weeklyPatterns : list WeeklyPattern.t) (lastEntries : list MoodEnergyEntry)
    (now : Z) (rounds : nat) :
  (length lastEntries < 4)%nat ->
  forall (i : Z) (acc1 acc2 : list PredictionData) (w1 w2 : World),
  draws w1 = draws w2 ->
  exists ps qs,
    fst (predict_loop dailyPatterns weeklyPatterns lastEntries now rounds i acc1 w1)
      = Resolved (acc1 ++ ps) /\
    fst (predict_loop dailyPatterns weeklyPatterns [] now rounds i acc2 w2)
      = Resolved (acc2 ++ qs) /\
    map p_timestamp ps = map p_timestamp qs /\
    map predictedMood ps = map predictedMood qs /\
    map predictedEnergy ps = map predictedEnergy qs.
Proof.
  intros Hlen. induction rounds as [|rounds IH]; intros i acc1 acc2 w1 w2 Hd.
  - exists [], []. by rewrite !app_nil_r.
  - cbn [predict_loop]. unfold bind.
    destruct (predict_step_short dailyPatterns weeklyPatterns lastEntries now i w1 w2
                Hlen Hd) as (p & q & Hp & Hq & Ht & Hm & He).
    destruct (predict_step_run dailyPatterns weeklyPatterns lastEntries now i w1)
      as (p' & ? & ? & Hrun1 & _).
    destruct (predict_step_run dailyPatterns weeklyPatterns [] now i w2)
      as (q' & ? & ? & Hrun2 & _).
    rewrite Hrun1 in Hp. rewrite Hrun2 in Hq. cbn [fst] in Hp, Hq.
    injection Hp as ->. injection Hq as ->. rewrite Hrun1, Hrun2.
    destruct (IH (i + 1)%Z (acc1 ++ [p]) (acc2 ++ [q])
                {| storage := storage w1; clock := clock w1; draws := S (S (draws w1)) |}
                {| storage := storage w2; clock := clock w2; draws := S (S (draws w2)) |})
      as (ps & qs & Hps & Hqs & Hts & Hms & Hes); [cbn [draws]; by rewrite Hd|].
    exists (p :: ps), (q :: qs). rewrite Hps, Hqs, <- !app_assoc. cbn [app map].
    by rewrite Ht, Hm, He, Hts, Hms, Hes.
Qed.

(** X18. With fewer than four stored samples the trend is zero: a forecast
    has the timestamps, moods and energies of the forecast made with no
    stored sample at all (same stored patterns, clock and random values). *)
Theorem short_history_forecasts_like_none (hoursAhead : Z) (w : World) :
  (length (stored_entries w) < 4)%nat ->
  let bare := {| storage := {| ENTRIES := None;
                               DAILY_PATTERNS := DAILY_PATTERNS (storage w);
                               WEEKLY_PATTERNS := WEEKLY_PATTERNS (storage w);
                               LAST_ENTRY := LAST_ENTRY (storage w) |};
                 clock := clock w; draws := draws w |} in
  exists ps qs,
    fst (generatePredictions hoursAhead w) = Resolved ps /\
    fst (generatePredictions hoursAhead bare) = Resolved qs /\
    map p_timestamp ps = map p_timestamp qs /\
    map predictedMood ps = map predictedMood qs /\
    map predictedEnergy ps = map predictedEnergy qs.
Proof.
  intros Hlen. cbv zeta. rewrite !generatePredictions_unfold.
  unfold stored_entries at 2. cbn [storage ENTRIES DAILY_PATTERNS WEEKLY_PATTERNS clock
    default from_option].
  change (slice_last 10 []) with (@nil MoodEnergyEntry).
  destruct (predict_loop_short (default [] (DAILY_PATTERNS (storage w)))
              (default [] (WEEKLY_PATTERNS (storage w)))
              (slice_last 10 (stored_entries w)) (clock w) (Z.to_nat hoursAhead))
    with (i := 1%Z) (acc1 := @nil PredictionData) (acc2 := @nil PredictionData)
         (w1 := w)
         (w2 := {| storage := {| ENTRIES := None;
                                 DAILY_PATTERNS := DAILY_PATTERNS (storage w);
                                 WEEKLY_PATTERNS := WEEKLY_PATTERNS (storage w);
                                 LAST_ENTRY := LAST_ENTRY (storage w) |};
                   clock := clock w; draws := draws w |})
    as (ps & qs & Hps & Hqs & Hrest); [rewrite slice_last_length; lia | done |].
  exists ps, qs. by rewrite Hps, Hqs.
Qed.

Lemma generatePredictions_world (hoursAhead : Z) (w : World) :
  snd (generatePredictions hoursAhead w) =
    {| storage := storage w; clock := clock w;
       draws := (draws w + 2 * Z.to_nat hoursAhead)%nat |}.
Proof.
  rewrite generatePredictions_unfold.
  destruct (predict_loop_run (fun _ => True)
              (default [] (DAILY_PATTERNS (storage w)))
              (default [] (WEEKLY_PATTERNS (storage w)))
              (slice_last 10 (stored_entries w)) (clock w)) with
    (rounds := Z.to_nat hoursAhead) (i := 1%Z) (acc := @nil PredictionData) (w := w)
    as (ps & Hrun & _); [done|].
  by rewrite Hrun.
Qed.

(** X19. [findEnergyDips] resolves with at most twelve dips, each with an
    energy from 10 up to (and not including) 35, and leaves the store and the
    clock as they were. *)
Theorem found_dips_are_bounded (w : World) :
  exists dips w',
    findEnergyDips w = (Resolved dips, w') /\
    (length dips <= 12)%nat /\
    Forall (fun d => (10 <= dip_energy d < 35)%Z) dips /\
    storage w' = storage w /\ clock w' = clock w.
Proof.
  destruct (generatePredictions_points
              (fun p => (10 <= predictedEnergy p <= 90)%Z) 12 w)
    as (ps & w' & Hrun & Hlen & Hall); [done|].
  pose proof (generatePredictions_world 12 w) as Hworld.
  rewrite Hrun in Hworld. cbn [snd] in Hworld. subst w'.
  unfold findEnergyDips, bind. rewrite Hrun. unfold ret.
  eexists _, _. split; [reflexivity|]. rewrite length_map.
  split; [|split; [|done]].
  - unfold energy_dips. pose proof (filter_length_le is_dip ps).
    change (Z.to_nat 12) with 12%nat in Hlen. lia.
  - apply Forall_map. apply List.Forall_forall. intros p Hp. cbn [dip_energy].
    apply filter_In in Hp as [Hin Hdip].
    pose proof (proj1 (List.Forall_forall _ ps) Hall p Hin) as Hrange.
    unfold is_dip in Hdip. apply Z.ltb_lt in Hdip.
    cbv beta in Hrange |- *. cbn [dip_energy].
    destruct (gt_number (confidence p) 0.7); lia.
Qed.

(** X20. [getDefaultPatternForHour] answers for every hour, with that
    hour and [entryCount = 0]: the table's entry for 0..23, and 50 / 50 for
    any other hour; [getDefaultPatternForDay] likewise, with 60 / 60 outside
    0..6. *)
Theorem defaults_answer_for_every_key (k : Z) :
  DailyPattern.hour (getDefaultPatternForHour k) = k /\
  DailyPattern.entryCount (getDefaultPatternForHour k) = 0%Z /\
  ((0 <= k < 24)%Z -> In (getDefaultPatternForHour k) DEFAULT_DAILY_PATTERNS) /\
  (~ (0 <= k < 24)%Z -> getDefaultPatternForHour k = neutral_hour k) /\
  WeeklyPattern.dayOfWeek (getDefaultPatternForDay k) = k /\
  WeeklyPattern.entryCount (getDefaultPatternForDay k) = 0%Z /\
  ((0 <= k < 7)%Z -> In (getDefaultPatternForDay k) DEFAULT_WEEKLY_PATTERNS) /\
  (~ (0 <= k < 7)%Z -> getDefaultPatternForDay k = neutral_day k).
Proof.
  split; [|split; [apply default_hour_count|split; [|split; [|split;
    [|split; [apply default_day_count|split]]]]]].
  - unfold getDefaultPatternForHour.
    destruct (find_hour k DEFAULT_DAILY_PATTERNS) as [p|] eqn:Hp; [|done].
    by eapply find_hour_key.
  - intros Hk. destruct (table_hour k Hk) as [Hf _]. by apply find_some in Hf as [Hin _].
  - intros Hk. unfold getDefaultPatternForHour. rewrite find_hour_absent; [done|].
    repeat (apply List.Forall_cons; [cbn; lia|]). apply List.Forall_nil.
  - unfold getDefaultPatternForDay.
    destruct (find_day k DEFAULT_WEEKLY_PATTERNS) as [p|] eqn:Hp; [|done].
    by eapply find_day_key.
  - intros Hk. destruct (table_day k Hk) as [Hf _]. by apply find_some in Hf as [Hin _].
  - intros Hk. unfold getDefaultPatternForDay. rewrite find_day_absent; [done|].
    repeat (apply List.Forall_cons; [cbn; lia|]). apply List.Forall_nil.
Qed.

End Predictor.

(** ** The properties on the concrete device *)

(** C2 on the device: a horizon of -3 over a stored history. *)
Lemma C2_horizon_witness :
  generatePredictions Device.getHours Device.getDay Device.sin_pi Device.random_values
    (-3) (Device.world_of Device.eight_at_nine)
  = (Resolved [], Device.world_of Device.eight_at_nine).
Proof. apply C2_nonpositive_horizon_resolves_empty. lia. Defined.

(** C2 as stated fails: with horizon 0 the forecast resolves (with no
    point); it is not rejected with [InvalidRange]. *)
Lemma C2_horizon_counterexample :
  fst (generatePredictions Device.getHours Device.getDay Device.sin_pi
         Device.random_values 0 Device.fresh) = Resolved [] /\
  fst (generatePredictions Device.getHours Device.getDay Device.sin_pi
         Device.random_values 0 Device.fresh) <> Rejected InvalidRange.
Proof. split; [reflexivity | discriminate]. Qed.

(** C3 on the device: the scenario of twenty samples at 09:00, and the
    bucket of six samples at 09:00 with moods 66 (five times) and 65, whose
    blend the doubles put just under 63.5. *)
Lemma C3_blend_witness :
  Binary64.dailyPatterns Device.getHours
      (stored_entries (Device.world_of Device.twenty_at_nine)) !! 9%nat
    = Some {| Binary64.Daily.hour := 9;
              Binary64.Daily.averageMood := Binary64.of_Z 76;
              Binary64.Daily.averageEnergy := Binary64.of_Z 76;
              Binary64.Daily.entryCount := 20 |} /\
  Binary64.dailyPatterns Device.getHours
      (stored_entries (Device.world_of Device.six_at_nine)) !! 9%nat
    = Some {| Binary64.Daily.hour := 9;
              Binary64.Daily.averageMood := Binary64.of_Z 63;
              Binary64.Daily.averageEnergy := Binary64.of_Z 60;
              Binary64.Daily.entryCount := 6 |}.
Proof.
  split.
  - destruct (C3_hourly_blend Device.getHours (Device.world_of Device.twenty_at_nine))
      as [_ Hscenario].
    assert (Hall : Forall (fun e => Device.getHours (timestamp e) = 9%Z /\
                                    Binary64.of_Q (mood e) = Binary64.of_Z 80 /\
                                    Binary64.of_Q (energy e) = Binary64.of_Z 80)
                          (stored_entries (Device.world_of Device.twenty_at_nine))).
    { let l := eval vm_compute in (stored_entries (Device.world_of Device.twenty_at_nine)) in
      change (stored_entries (Device.world_of Device.twenty_at_nine)) with l.
      repeat (apply List.Forall_cons; [by vm_compute|]). apply List.Forall_nil. }
    destruct (Hscenario eq_refl Hall) as (_ & _ & H). exact H.
  - destruct (C3_hourly_blend Device.getHours (Device.world_of Device.six_at_nine))
      as [Hblend _].
    assert (Hn : (1 <= length (bucket_of Device.getHours 9
                     (stored_entries (Device.world_of Device.six_at_nine))))%nat).
    { vm_compute. lia. }
    pose proof (Hblend 9%Z ltac:(lia) Hn) as Hp.
    change (Z.to_nat 9) with 9%nat in Hp. rewrite Hp. vm_compute. reflexivity.
Defined.

(** C5 on the device: the bucket of eight samples at 09:00, whose raw mean
    59.25 and baseline 60 leave the blend between 59 and 60. *)
Lemma C5_blend_bound_witness :
  exists ps w' p,
    analyzeDailyPatterns Device.getHours (Device.world_of Device.eight_at_nine)
      = (Resolved ps, w') /\
    ps !! 9%nat = Some p /\
    (59 <= DailyPattern.averageMood p <= 60)%Q /\
    (60 <= DailyPattern.averageEnergy p <= 60)%Q.
Proof.
  destruct (C5_blend_within_rounded_ends Device.getHours Device.getDay
              (Device.world_of Device.eight_at_nine)) as [Hdaily _].
  assert (Hn : (1 <= length (bucket_of Device.getHours 9
                   (stored_entries (Device.world_of Device.eight_at_nine))))%nat).
  { vm_compute. lia. }
  destruct (Hdaily 9%Z ltac:(lia) Hn) as (ps & w' & p & Hrun & Hp & Hm & He).
  exists ps, w', p. split; [exact Hrun|]. split; [exact Hp|]. split; [exact Hm | exact He].
Defined.

(** C5 as stated fails: eight samples at hour 9 with moods 59 (six times)
    and 60 (twice) have raw mean 59.25; against the baseline 60 the blend is
    [round(59.25 * 0.8 + 60 * 0.2) = round(59.4) = 59], below both.  The
    blend is 59 in double precision as well. *)
Lemma C5_blend_bound_counterexample :
  let w := Device.world_of Device.eight_at_nine in
  let bucket := bucket_of Device.getHours 9 (stored_entries w) in
  let baseline := getDefaultPatternForHour 9 in
  exists ps w' p,
    analyzeDailyPatterns Device.getHours w = (Resolved ps, w') /\
    ps !! 9%nat = Some p /\
    length bucket = 8%nat /\
    raw_mean (map mood bucket) == 59.25 /\
    DailyPattern.averageMood baseline = 60%Q /\
    DailyPattern.averageMood p = 59%Q /\
    (DailyPattern.averageMood p
       < Qmin (raw_mean (map mood bucket)) (DailyPattern.averageMood baseline))%Q /\
    Binary64.Daily.averageMood
      <$> Binary64.dailyPatterns Device.getHours (stored_entries w) !! 9%nat
      = Some (Binary64.of_Z 59).
Proof.
  cbv zeta. rewrite analyzeDailyPatterns_run. cbv zeta.
  eexists _, _, _. split; [reflexivity|].
  split; [by vm_compute|].
  repeat (split; [by vm_compute|]). vm_compute. reflexivity.
Qed.

(** C6 as stated fails: on a fresh install each analysis creates its own
    stored pattern list. *)
Lemma C6_analysis_counterexample :
  DAILY_PATTERNS (storage Device.fresh) = None /\
  WEEKLY_PATTERNS (storage Device.fresh) = None /\
  DAILY_PATTERNS (storage (snd (analyzeDailyPatterns Device.getHours Device.fresh)))
    = Some (map getDefaultPatternForHour (seqZ 0 24)) /\
  WEEKLY_PATTERNS (storage (snd (analyzeWeeklyPatterns Device.getDay Device.fresh)))
    = Some (map getDefaultPatternForDay (seqZ 0 7)) /\
  storage (snd (analyzeDailyPatterns Device.getHours Device.fresh)) <> storage Device.fresh /\
  storage (snd (analyzeWeeklyPatterns Device.getDay Device.fresh)) <> storage Device.fresh.
Proof. by vm_compute. Qed.

(** C4 as stated fails: a point whose energy equals its threshold is at
    the threshold, and is not returned. *)
Lemma C4_dip_counterexample :
  dip_threshold Device.on_threshold = 30%Z /\
  (predictedEnergy Device.on_threshold <= dip_threshold Device.on_threshold)%Z /\
  energy_dips [Device.on_threshold] = [].
Proof. by vm_compute. Qed.

(** C8 on the device: a fresh install. *)
Lemma C8_baseline_witness :
  exists ds ws,
    fst (analyzeDailyPatterns Device.getHours Device.fresh) = Resolved ds /\
    fst (analyzeWeeklyPatterns Device.getDay Device.fresh) = Resolved ws /\
    ds !! 9%nat = Some (daily 9 60 60) /\
    ws !! 0%nat = Some (weekly 0 55 60).
Proof.
  destruct (C8_empty_history_gives_baseline Device.getHours Device.getDay Device.fresh eq_refl)
    as (ds & ws & w1 & w2 & Hd & Hw & Hhours & Hdays).
  exists ds, ws. rewrite Hd, Hw. split; [reflexivity|]. split; [reflexivity|].
  destruct (Hhours 9%Z ltac:(lia)) as (p & Hp & Hf & _).
  destruct (Hdays 0%Z ltac:(lia)) as (q & Hq & Hg & _).
  change (Some (daily 9 60 60) = Some p) in Hf. injection Hf as <-.
  change (Some (weekly 0 55 60) = Some q) in Hg. injection Hg as <-.
  split; [exact Hp | exact Hq].
Defined.

(** C10 on the device: eighteen stored samples against their last ten. *)
Lemma C10_last_ten_witness :
  fst (generatePredictions Device.getHours Device.getDay Device.sin_pi Device.random_values
         12 (Device.world_of Device.long_history))
  = fst (generatePredictions Device.getHours Device.getDay Device.sin_pi Device.random_values
           12 (Device.world_of Device.recent)).
Proof. apply C10_only_last_ten_samples_matter; reflexivity. Defined.

(** ** More properties on the concrete device *)

(** X3 on the device: fourteen Mondays with moods 54 (eight times) and 53,
    whose blend the doubles put just under 52.5. *)
Lemma weekly_blend_witness :
  Binary64.weeklyPatterns Device.getDay
      (stored_entries (Device.world_of Device.fourteen_mondays)) !! 1%nat
    = Some {| Binary64.Weekly.dayOfWeek := 1;
              Binary64.Weekly.averageMood := Binary64.of_Z 52;
              Binary64.Weekly.averageEnergy := Binary64.of_Z 62;
              Binary64.Weekly.entryCount := 14 |}.
Proof.
  assert (Hn : (1 <= length (bucket_of Device.getDay 1
                   (stored_entries (Device.world_of Device.fourteen_mondays))))%nat).
  { vm_compute. lia. }
  pose proof (weekly_blend Device.getDay (Device.world_of Device.fourteen_mondays) 1%Z
                ltac:(lia) Hn) as Hp.
  change (Z.to_nat 1) with 1%nat in Hp. rewrite Hp. vm_compute. reflexivity.
Defined.

(** Where the two readings of the arithmetic part: on the six samples at
    09:00 the exact blend is 63.5 and rounds to 64, the double-precision
    blend is just under it and rounds to 63; on the fourteen Mondays the
    exact blend is 52.5 and rounds to 53, the double-precision one rounds to
    52. *)
Remark exact_blend_differs_at_ties :
  (DailyPattern.averageMood
     <$> map (daily_entry (group_entries Device.getHours Device.six_at_nine)) (seqZ 0 24)
         !! 9%nat = Some 64%Q /\
   Binary64.Daily.averageMood
     <$> Binary64.dailyPatterns Device.getHours Device.six_at_nine !! 9%nat
     = Some (Binary64.of_Z 63)) /\
  (WeeklyPattern.averageMood
     <$> map (weekly_entry (group_entries Device.getDay Device.fourteen_mondays)) (seqZ 0 7)
         !! 1%nat = Some 53%Q /\
   Binary64.Weekly.averageMood
     <$> Binary64.weeklyPatterns Device.getDay Device.fourteen_mondays !! 1%nat
     = Some (Binary64.of_Z 52)).
Proof. repeat split; vm_compute; reflexivity. Qed.

(** X4 on the device: the eight samples are all counted. *)
Lemma analysis_counts_witness :
  exists ds ws,
    fst (analyzeDailyPatterns Device.getHours (Device.world_of Device.eight_at_nine))
      = Resolved ds /\
    fst (analyzeWeeklyPatterns Device.getDay (Device.world_of Device.eight_at_nine))
      = Resolved ws /\
    total (map DailyPattern.entryCount ds) = 8%Z /\
    total (map WeeklyPattern.entryCount ws) = 8%Z.
Proof.
  assert (Hkeys : forall e,
            In e (stored_entries (Device.world_of Device.eight_at_nine)) ->
            (0 <= Device.getHours (timestamp e) < 24)%Z /\
            (0 <= Device.getDay (timestamp e) < 7)%Z).
  { apply List.Forall_forall. compute_list (stored_entries (Device.world_of Device.eight_at_nine)).
    each_by_computation. }
  destruct (analysis_counts_every_sample Device.getHours Device.getDay
              (Device.world_of Device.eight_at_nine) Hkeys)
    as (ds & ws & w1 & w2 & Hd & Hw & _ & _ & Hdt & Hwt).
  exists ds, ws. rewrite Hd, Hw. split; [reflexivity|]. split; [reflexivity|].
  split; [exact Hdt | exact Hwt].
Defined.

(** X6 on the device: a fresh install. *)
Lemma empty_history_forecast_witness :
  fst (generatePredictions Device.getHours Device.getDay Device.sin_pi Device.random_values 12
         (snd (analyzeWeeklyPatterns Device.getDay
                 (snd (analyzeDailyPatterns Device.getHours Device.fresh)))))
  = fst (generatePredictions Device.getHours Device.getDay Device.sin_pi
           Device.random_values 12 Device.fresh).
Proof. apply analysis_of_empty_history_keeps_forecast; reflexivity. Defined.

(** X9: seven values between 0 and 100. *)
Lemma trend_bounded_witness :
  (- (100 - 0) <= calculateTrend [50; 60; 70; 40; 80; 90; 100] <= 100 - 0)%Q.
Proof.
  apply trend_bounded; [each_by_computation | by vm_compute].
Defined.

(** X10 on the device: the variation of the first point of a forecast made
    at 08:00 for 09:00. *)
Lemma variation_witness :
  exists m e,
    getTimeBasedVariation Device.sin_pi Device.random_values 9 1 Device.fresh =
      (Resolved (m, e),
       {| storage := storage Device.fresh; clock := clock Device.fresh;
          draws := 2 |}) /\
    (-5 <= m <= 5)%Q /\ (-6.5 <= e <= 6.5)%Q.
Proof.
  apply (variation_is_small Device.sin_pi Device.random_values 9 1 Device.fresh);
    first [lia | by vm_compute].
Defined.

(** X12 on the device: the sample of day 3 is saved again with new values. *)
Lemma saving_ids_witness :
  let w' := snd (LocalStateManager.saveEntry (Device.sample 3 70 70)
                   (Device.world_of Device.eight_at_nine)) in
  NoDup (map id (stored_entries w')) /\
  length (stored_entries w') = 8%nat.
Proof.
  assert (Hnd : NoDup (map id (stored_entries (Device.world_of Device.eight_at_nine)))).
  { apply (bool_decide_unpack _). by vm_compute. }
  destruct (saving_keeps_ids_distinct (Device.sample 3 70 70)
              (Device.world_of Device.eight_at_nine) Hnd) as (Hnd' & _).
  split; [exact Hnd' | reflexivity].
Defined.

(** X15 on the device: the averages of the eight samples. *)
Lemma averages_witness :
  (0 <= fst (Insights.getAverages Device.eight_at_nine) <= 100)%Z /\
  (0 <= snd (Insights.getAverages Device.eight_at_nine) <= 100)%Z.
Proof.
  assert (Hall : Forall (fun e => (inject_Z 0 <= mood e <= inject_Z 100)%Q /\
                                  (inject_Z 0 <= energy e <= inject_Z 100)%Q)
                        Device.eight_at_nine).
  { compute_list Device.eight_at_nine. each_by_computation. }
  destruct (averages_stay_in_range 0 100 Device.eight_at_nine Hall) as [_ Hin].
  apply Hin. vm_compute. lia.
Defined.

(** X16 on the device: the trends over the eight samples. *)
Lemma insight_trends_witness :
  (- (100 - 0) <= fst (Insights.getTrends Device.eight_at_nine) <= 100 - 0)%Z /\
  (- (100 - 0) <= snd (Insights.getTrends Device.eight_at_nine) <= 100 - 0)%Z.
Proof.
  assert (Hall : Forall (fun e => (inject_Z 0 <= mood e <= inject_Z 100)%Q /\
                                  (inject_Z 0 <= energy e <= inject_Z 100)%Q)
                        Device.eight_at_nine).
  { compute_list Device.eight_at_nine. each_by_computation. }
  destruct (insight_trends_bounded 0 100 Device.eight_at_nine Hall) as (_ & _ & Hin).
  apply Hin. vm_compute. lia.
Defined.

(** X18 on the device: three stored samples against a fresh install. *)
Lemma short_history_witness :
  exists ps qs,
    fst (generatePredictions Device.getHours Device.getDay Device.sin_pi
           Device.random_values 12 (Device.world_of (take 3 Device.eight_at_nine)))
      = Resolved ps /\
    fst (generatePredictions Device.getHours Device.getDay Device.sin_pi
           Device.random_values 12 Device.fresh) = Resolved qs /\
    map predictedMood ps = map predictedMood qs /\
    map predictedEnergy ps = map predictedEnergy qs.
Proof.
  assert (Hlen : (length (stored_entries (Device.world_of (take 3 Device.eight_at_nine)))
                  < 4)%nat).
  { vm_compute. lia. }
  destruct (short_history_forecasts_like_none Device.getHours Device.getDay Device.sin_pi
              Device.random_values 12 (Device.world_of (take 3 Device.eight_at_nine)) Hlen)
    as (ps & qs & Hps & Hqs & _ & Hm & He).
  exists ps, qs. split; [exact Hps|]. split; [exact Hqs|]. split; [exact Hm | exact He].
Defined.
